(** * ShopHub backend: registration and login flows of [backend/app.py]

    A shallow embedding of the verification-code registration flow
    ([send_verification], [register_user]) and of the login fallback chain
    ([login_user], [sign_in_with_firebase], [ensure_local_user_record],
    [authenticate_locally]) together with the properties the specification
    states about them, followed by the status, deletion and tracking
    routes of the orders table ([update_order_status], [delete_order],
    [track_order]) and the feedback route ([submit_feedback]) with its
    email pattern.

    Conventions of the embedding:
    - the SQLite [users] table is a list of rows in rowid order together with
      the AUTOINCREMENT counter; the process-wide dict [verification_codes]
      is a finite map keyed by strings; both are threaded through every
      handler as an explicit state;
    - every handler returns the pair of its HTTP response and the new state;
    - what the handlers obtain from the outside world (the clock, the random
      digits, the SMTP result, the answers of Firebase) is an argument of the
      handler;
    - timestamps are integers (seconds); [str.lower], [str.strip], SHA-256
      and [json.loads] are parameters of the development;
    - [re.match] is modelled by a matcher on regular expressions, proved to
      decide their language. *)

From Stdlib Require Import ZArith String Ascii List Bool Lia Sorted.
From stdpp Require Import strings gmap.

Local Open Scope Z_scope.
Local Open Scope string_scope.

(** ** Python values *)

(** [bool(s)] for a [str]: only the empty string is falsy. *)
Definition truthy (s : string) : bool := negb (String.eqb s "").

(** [bool(x)] for an [Optional[str]] such as the result of [dict.get]. *)
Definition truthy_opt (o : option string) : bool :=
  match o with
  | Some s => truthy s
  | None => false
  end.

(** [bool(n)] for an [int]. *)
Definition truthy_int (n : Z) : bool := negb (Z.eqb n 0).

(** [s.split('@')[0]]: the text before the first ['@'], all of [s] when
    there is none. *)
Fixpoint split_at_0 (s : string) : string :=
  match s with
  | EmptyString => EmptyString
  | String c rest =>
      if Ascii.eqb c "@"%char then EmptyString else String c (split_at_0 rest)
  end.

(** [str.lower] restricted to ASCII text, used to run the handlers on
    concrete requests. *)
Definition ascii_lower_char (c : ascii) : ascii :=
  let n := nat_of_ascii c in
  if (Nat.leb 65 n && Nat.leb n 90)%bool then ascii_of_nat (n + 32) else c.

Fixpoint ascii_lower (s : string) : string :=
  match s with
  | EmptyString => EmptyString
  | String c rest => String (ascii_lower_char c) (ascii_lower rest)
  end.

(** A stand-in digest for running the handlers on concrete requests: it only
    has to be some function from passwords to non-secret text. *)
Definition tagged_digest (password : string) : string := "sha256:" +:+ password.

(** ** Data model *)

(** A row of the [users] table ([cart] and [created_at] play no role in the
    flows below). [phone] is a nullable column. *)
Record user_row := {
  u_id : Z;
  u_name : string;
  u_email : string;
  u_password : string;
  u_phone : option string
}.

(** A value of the dict [verification_codes]. *)
Record ticket := {
  t_code : string;
  t_expires_at : Z;
  t_name : string;
  t_password : string;
  t_phone : string
}.

(** The mutable state the handlers share: the [users] table, its
    AUTOINCREMENT counter (the [sqlite_sequence] entry) and the dict
    [verification_codes]. *)
Record state := {
  users : list user_row;
  users_seq : Z;
  verification_codes : gmap string ticket
}.

(** The ['user'] object of a successful response. *)
Record user_view := {
  v_id : Z;
  v_name : string;
  v_email : string;
  v_phone : string
}.

(** The body of a response. *)
Inductive body :=
| Failure (message : string)   (* {'success': False, 'message': message} *)
| Notice (message : string)    (* {'success': True, 'message': message} *)
| User (user : user_view)      (* {'success': True, 'user': {...}} *)
| ServerError.                 (* Flask's page for an exception no handler caught *)

(** A response: its body and its HTTP status. *)
Definition response : Type := body * Z.

Definition VERIFICATION_CODE_EXPIRY : Z := 600.

(** ** The outside world *)

(** What [firebase_auth.create_user] does. *)
Inductive create_user_outcome :=
| Created (uid : string)
| EmailAlreadyExistsError
| CreateUserError.

(** What [requests.post(...)] followed by [.json()] gives in
    [sign_in_with_firebase]: a [RequestException], or a response with its
    status code, the ['localId'] of its JSON and the ['message'] of the
    ['error'] object of its JSON. *)
Inductive http_outcome :=
| RequestException
| HttpResponse (status_code : Z) (localId : option string) (error_code : option string).

(** What [firebase_auth.get_user] does: it raises, or returns a record with
    optional [display_name] and [phone_number]. *)
Inductive get_user_outcome :=
| GetUserRaises
| UserRecord (display_name : option string) (phone_number : option string).

(** The JSON of a registration request ([data.get] on each key). *)
Record register_data := {
  d_name : option string;
  d_email : option string;
  d_password : option string;
  d_phone : option string;
  d_verification_code : option string
}.

(** The JSON of a login request. *)
Record login_data := {
  l_email : option string;
  l_password : option string
}.

(** The JSON body of a registration request carrying the four fields and,
    for [register_user], the verification code. *)
Definition registration (name email password phone : string)
    (verification_code : option string) : register_data :=
  {| d_name := Some name; d_email := Some email; d_password := Some password;
     d_phone := Some phone; d_verification_code := verification_code |}.

(** A registration request whose four fields pass the presence check
    [all([name, email, password, phone])] of the handlers. *)
Definition well_formed (name email password phone : string) : Prop :=
  truthy name = true /\ truthy email = true /\
  truthy password = true /\ truthy phone = true.

(** [all([name, email, password, phone])] on the fields of a request. *)
Definition fields_present (data : register_data) : bool :=
  truthy_opt (d_name data) && truthy_opt (d_email data)
  && truthy_opt (d_password data) && truthy_opt (d_phone data).

(** The JSON body of a login request carrying both fields. *)
Definition credentials (email password : string) : login_data :=
  {| l_email := Some email; l_password := Some password |}.

(** ** The response literals of the handlers, named after the failure
    kinds of the specification *)

Definition AllFieldsRequired : response := (Failure "All fields are required", 400).
Definition CodeRequired : response := (Failure "Verification code is required", 400).
Definition AlreadyRegistered : response := (Failure "Email already registered", 400).
Definition ReservedEmail : response := (Failure "This email is reserved for admin use.", 400).
Definition CodeSent : response :=
  (Notice "Verification code sent to your email. Please check your inbox.", 200).
Definition DeliveryFailed : response :=
  (Failure "Failed to send verification email. Please try again.", 500).
Definition CodeNotFound : response :=
  (Failure "Verification code not found. Please request a new code.", 400).
Definition CodeExpired : response :=
  (Failure "Verification code has expired. Please request a new code.", 400).
Definition CodeMismatch : response :=
  (Failure "Invalid verification code. Please try again.", 400).
Definition DataMismatch : response :=
  (Failure "Registration data mismatch. Please start over.", 400).
Definition RegistrationFailed : response := (Failure "Registration failed", 500).
Definition CredentialsRequired : response :=
  (Failure "Email and password are required", 400).
Definition UncaughtException : response := (ServerError, 500).

(** Whether a response reports success (a 2xx body with ['success': True]). *)
Definition succeeded (r : response) : bool :=
  match fst r with
  | User _ | Notice _ => true
  | Failure _ | ServerError => false
  end.

(** ** The users table *)

(** [SELECT * FROM users WHERE email = ?] then [fetchone()]: the comparison
    is SQLite's default, byte for byte. *)
Definition fetch_local_user (st : state) (email : string) : option user_row :=
  List.find (fun u => String.eqb (u_email u) email) (users st).

(** [bool(row)] for the [Optional[sqlite3.Row]] a fetch returns. *)
Definition found (row : option user_row) : bool :=
  match row with
  | Some _ => true
  | None => false
  end.

(** The largest rowid in use, 0 for an empty table. *)
Definition max_rowid (rows : list user_row) : Z :=
  fold_right (fun u m => Z.max (u_id u) m) 0 rows.

(** The largest rowid SQLite can give, [2^63 - 1]. *)
Definition MAX_ROWID : Z := 9223372036854775807.

(** The largest rowid the users table has ever held: its AUTOINCREMENT
    counter or the largest rowid in use. *)
Definition largest_rowid (st : state) : Z :=
  Z.max (users_seq st) (max_rowid (users st)).

(** The users table can still take a row: an AUTOINCREMENT table that has
    held the rowid [2^63 - 1] refuses every further INSERT. *)
Definition rowid_available (st : state) : Prop := largest_rowid st < MAX_ROWID.

(** [INSERT INTO users (name, email, password, phone) VALUES (?, ?, ?, ?)]
    and [commit]: [None] stands for the exception SQLite raises, the
    [sqlite3.IntegrityError] of the UNIQUE constraint on [email] or the
    [sqlite3.OperationalError] of a table whose rowids are used up;
    otherwise the row gets the next AUTOINCREMENT id ([cursor.lastrowid])
    and is appended. *)
Definition insert_user (st : state) (name email password_hash phone : string)
  : option (Z * state) :=
  match fetch_local_user st email with
  | Some _ => None
  | None =>
      if Z.ltb (largest_rowid st) MAX_ROWID then
        let new_id := largest_rowid st + 1 in
        Some (new_id,
              {| users := users st ++
                   [{| u_id := new_id; u_name := name; u_email := email;
                       u_password := password_hash; u_phone := Some phone |}];
                 users_seq := new_id;
                 verification_codes := verification_codes st |})
      else None
  end.

(** [verification_codes[key] = value]. *)
Definition store_ticket (key : string) (value : ticket) (st : state) : state :=
  {| users := users st; users_seq := users_seq st;
     verification_codes := <[key := value]> (verification_codes st) |}.

(** [verification_codes.pop(key, None)]. *)
Definition pop_ticket (key : string) (st : state) : state :=
  {| users := users st; users_seq := users_seq st;
     verification_codes := delete key (verification_codes st) |}.

(** The number of rows of the users table stored under an email. *)
Definition records_for (st : state) (email : string) : nat :=
  length (List.filter (fun u => String.eqb (u_email u) email) (users st)).

(** ** Verification codes *)

(** [str(random.randint(0, 9))] for the [i]-th draw of the generator, whose
    raw output is [rnd i]. *)
Definition digit (rnd : nat -> nat) (i : nat) : ascii :=
  ascii_of_nat (48 + rnd i mod 10).

(** [generate_verification_code]: six random decimal digits. *)
Definition generate_verification_code (rnd : nat -> nat) : string :=
  string_of_list_ascii (List.map (digit rnd) (seq 0 6)).

(** [build_user_response]. *)
Definition build_user_response (user_row : option user_row) : body :=
  match user_row with
  | None => Failure "User not found"
  | Some row =>
      User {| v_id := u_id row; v_name := u_name row; v_email := u_email row;
              v_phone := match u_phone row with
                         | Some p => if truthy p then p else ""
                         | None => ""
                         end |}
  end.

(** [sign_in_with_firebase] returns one of two dicts. *)
Inductive firebase_result :=
| SignedIn (localId : option string)          (* {'success': True, 'data': ...} *)
| SignInFailed (message : string) (status : Z).

(** [friendly_messages.get(error_code, 'Unable to sign in with Firebase')]. *)
Definition friendly_message (error_code : option string) : string :=
  match error_code with
  | Some code =>
      if String.eqb code "EMAIL_NOT_FOUND" then "Invalid email or password"
      else if String.eqb code "INVALID_PASSWORD" then "Invalid email or password"
      else if String.eqb code "USER_DISABLED"
           then "Your account has been disabled. Please contact support."
      else "Unable to sign in with Firebase"
  | None => "Unable to sign in with Firebase"
  end.

(** [sign_in_with_firebase], on the outcome of its HTTP call. *)
Definition sign_in_with_firebase (http : http_outcome) : firebase_result :=
  match http with
  | HttpResponse status_code localId error_code =>
      if Z.eqb status_code 200 then SignedIn localId
      else SignInFailed (friendly_message error_code) 401
  | RequestException =>
      SignInFailed
        "Authentication service is unreachable. Please try again shortly." 503
  end.

(** ** Regular expressions, for the email pattern of the feedback route *)

(** The fragment of Python's [re] syntax the pattern uses: character
    classes, concatenation, alternation and repetition. *)
Inductive regex :=
| Empty                              (* matches nothing *)
| Eps                                (* matches the empty string *)
| Class (p : ascii -> bool)          (* one character of a class *)
| Cat (r1 r2 : regex)
| Alt (r1 r2 : regex)
| Star (r : regex).

(** [r+] and [r{2,}]. *)
Definition Plus (r : regex) : regex := Cat r (Star r).
Definition AtLeast2 (r : regex) : regex := Cat r (Cat r (Star r)).

(** The strings a regular expression matches in full. *)
Inductive in_lang : regex -> list ascii -> Prop :=
| in_eps : in_lang Eps []
| in_class p c : p c = true -> in_lang (Class p) [c]
| in_cat r1 r2 s1 s2 :
    in_lang r1 s1 -> in_lang r2 s2 -> in_lang (Cat r1 r2) (s1 ++ s2)
| in_alt_l r1 r2 s : in_lang r1 s -> in_lang (Alt r1 r2) s
| in_alt_r r1 r2 s : in_lang r2 s -> in_lang (Alt r1 r2) s
| in_star_nil r : in_lang (Star r) []
| in_star_cons r s1 s2 :
    in_lang r s1 -> in_lang (Star r) s2 -> in_lang (Star r) (s1 ++ s2).

(** Whether [r] matches the empty string. *)
Fixpoint nullable (r : regex) : bool :=
  match r with
  | Empty => false
  | Eps => true
  | Class _ => false
  | Cat r1 r2 => nullable r1 && nullable r2
  | Alt r1 r2 => nullable r1 || nullable r2
  | Star _ => true
  end.

(** What is left of [r] after it has read [c]. *)
Fixpoint deriv (c : ascii) (r : regex) : regex :=
  match r with
  | Empty => Empty
  | Eps => Empty
  | Class p => if p c then Eps else Empty
  | Cat r1 r2 =>
      if nullable r1 then Alt (Cat (deriv c r1) r2) (deriv c r2)
      else Cat (deriv c r1) r2
  | Alt r1 r2 => Alt (deriv c r1) (deriv c r2)
  | Star r1 => Cat (deriv c r1) (Star r1)
  end.

(** Whether [r] matches all of [s]. *)
Fixpoint matches (r : regex) (s : list ascii) : bool :=
  match s with
  | [] => nullable r
  | c :: rest => matches (deriv c r) rest
  end.

(** [re.match(pattern, s)] for a pattern [^R$]: a match exists when [R]
    matches all of [s], or all of [s] but one final newline, since [$]
    also matches just before a newline that ends the string. *)
Definition re_match (R : regex) (s : string) : bool :=
  matches (Cat R (Alt Eps (Class (Ascii.eqb "010"%char)))) (list_ascii_of_string s).

(** The classes [a-z], [A-Z] and [0-9]. *)
Definition in_range (lo hi : nat) (c : ascii) : bool :=
  (Nat.leb lo (nat_of_ascii c) && Nat.leb (nat_of_ascii c) hi)%bool.
Definition letter (c : ascii) : bool := (in_range 97 122 c || in_range 65 90 c)%bool.
Definition alphanumeric (c : ascii) : bool := (letter c || in_range 48 57 c)%bool.

(** [[a-zA-Z0-9._%+-]] and [[a-zA-Z0-9.-]]. *)
Definition local_char (c : ascii) : bool :=
  (alphanumeric c || Ascii.eqb c "." || Ascii.eqb c "_" || Ascii.eqb c "%"
   || Ascii.eqb c "+" || Ascii.eqb c "-")%bool%char.
Definition domain_char (c : ascii) : bool :=
  (alphanumeric c || Ascii.eqb c "." || Ascii.eqb c "-")%bool%char.

(** [email_pattern = r'^[a-zA-Z0-9._%+-]+@[a-zA-Z0-9.-]+\.[a-zA-Z]{2,}$'],
    without its anchors. *)
Definition email_pattern : regex :=
  Cat (Plus (Class local_char))
    (Cat (Class (Ascii.eqb "@"%char))
       (Cat (Plus (Class domain_char))
          (Cat (Class (Ascii.eqb "."%char))
             (AtLeast2 (Class letter))))).

(** The shape of the strings [email_pattern] accepts:
    [local @ domain . tld], optionally followed by one newline. *)
Definition email_shape (s : string) : Prop :=
  exists local domain tld ending,
    list_ascii_of_string s
    = (local ++ "@"%char :: domain ++ "."%char :: tld ++ ending)%list /\
    local <> [] /\ forallb local_char local = true /\
    domain <> [] /\ forallb domain_char domain = true /\
    (2 <= length tld)%nat /\ forallb letter tld = true /\
    (ending = [] \/ ending = ["010"%char]).

(** What a JSON object holds under a key: nothing, a string, or a value
    that is not a string (null, a number, a boolean, a list, an object). *)
Inductive json_field :=
| Missing
| Text (s : string)
| NotText.

(** The JSON object of a feedback request. *)
Record feedback_data := {
  f_name : json_field;
  f_email : json_field;
  f_phone : json_field;
  f_query : json_field
}.

(** The body is not a JSON object, or one of the four values is not a
    string. *)
Definition feedback_unreadable (data : option feedback_data) : Prop :=
  match data with
  | None => True
  | Some d =>
      f_name d = NotText \/ f_email d = NotText \/
      f_phone d = NotText \/ f_query d = NotText
  end.

(** The response of the [except Exception] branch of [submit_feedback]. *)
Definition FeedbackError : response :=
  (Failure "An error occurred while processing your feedback. Please try again.",
   500).

(** ** The orders table and its routes *)

(** A row of the [orders] table. [REAL] is the type of the values SQLite
    keeps in a REAL column. *)
Record order_row {REAL : Type} := {
  o_id : Z;
  o_order_number : string;
  o_customer_name : string;
  o_customer_email : string;
  o_customer_phone : option string;
  o_shipping_address : string;
  o_city : string;
  o_state : string;
  o_zip_code : string;
  o_total_amount : REAL;
  o_items : string;
  o_order_date : string;
  o_status : string
}.
Arguments order_row : clear implicits.

(** The [orders] table in rowid order and its AUTOINCREMENT counter (the
    [sqlite_sequence] entry, 0 when there is none). *)
Record orders_db {REAL : Type} := {
  orders : list (order_row REAL);
  orders_seq : Z
}.
Arguments orders_db : clear implicits.

(** The body of a response of the order routes; [json] is the type of
    parsed JSON values. *)
Inductive order_body {REAL json : Type} :=
| OError (error : string)           (* {'error': error} *)
| OFailure (message : string)       (* {'success': False, 'message': message} *)
| ONotice (message : string)        (* {'success': True, 'message': message} *)
| OOrder (row : order_row REAL) (items : json).
                                    (* dict(order) with 'items' parsed *)
Arguments order_body : clear implicits.

Definition valid_statuses : list string :=
  ["pending"; "processing"; "shipped"; "delivered"; "cancelled"].

(** [WHERE order_number = ?]. *)
Definition has_number {REAL} (order_number : string) (o : order_row REAL) : bool :=
  String.eqb (o_order_number o) order_number.

(** [SET status = ?] on one row. *)
Definition set_status {REAL} (new_status : string) (o : order_row REAL)
  : order_row REAL :=
  {| o_id := o_id o; o_order_number := o_order_number o;
     o_customer_name := o_customer_name o; o_customer_email := o_customer_email o;
     o_customer_phone := o_customer_phone o;
     o_shipping_address := o_shipping_address o; o_city := o_city o;
     o_state := o_state o; o_zip_code := o_zip_code o;
     o_total_amount := o_total_amount o; o_items := o_items o;
     o_order_date := o_order_date o; o_status := new_status |}.

(** [update_order_status]: [new_status] is [data.get('status')]. *)
Definition update_order_status {REAL json} (order_number : string)
    (new_status : option string) (db : orders_db REAL)
  : (order_body REAL json * Z) * orders_db REAL :=
  match new_status with
  | None => ((OError "Status is required", 400), db)
  | Some new_status =>
      if negb (truthy new_status) then ((OError "Status is required", 400), db)
      else if negb (existsb (String.eqb new_status) valid_statuses)
      then ((OError "Invalid status", 400), db)
      else
        let rowcount := length (List.filter (has_number order_number) (orders db)) in
        if Nat.eqb rowcount 0 then ((OError "Order not found", 404), db)
        else
          ((ONotice ("Order status updated to " +:+ new_status), 200),
           {| orders :=
                List.map (fun o => if has_number order_number o
                                   then set_status new_status o else o)
                  (orders db);
              orders_seq := orders_seq db |})
  end.

(** [delete_order]. *)
Definition delete_order {REAL json} (order_number : string) (db : orders_db REAL)
  : (order_body REAL json * Z) * orders_db REAL :=
  let deleted := length (List.filter (has_number order_number) (orders db)) in
  let db' :=
    {| orders := List.filter (fun o => negb (has_number order_number o)) (orders db);
       orders_seq := orders_seq db |} in
  if Nat.eqb deleted 0 then ((OFailure "Order not found", 404), db')
  else ((ONotice "Order deleted successfully", 200), db').

(** [track_order]: [json_loads] is [json.loads], giving the parsed value or
    the text of the exception it raises. *)
Definition track_order {REAL json} (json_loads : string -> json + string)
    (order_number : string) (db : orders_db REAL) : order_body REAL json * Z :=
  match List.find (has_number order_number) (orders db) with
  | None => (OError "Order not found", 404)
  | Some order =>
      match json_loads (o_items order) with
      | inl items => (OOrder order items, 200)
      | inr message => (OError message, 500)
      end
  end.

(** ** Predicates on states *)

(** [c] is one of the characters ['0'] to ['9']. *)
Definition is_digit (c : ascii) : bool :=
  (Nat.leb 48 (nat_of_ascii c) && Nat.leb (nat_of_ascii c) 57)%bool.

(** [s] consists of exactly six decimal digits. *)
Definition six_digits (s : string) : Prop :=
  String.length s = 6%nat /\ forallb is_digit (list_ascii_of_string s) = true.

(** The ticket holds a six-digit code and non-empty pending data. *)
Definition ticket_ok (tk : ticket) : Prop :=
  six_digits (t_code tk) /\ truthy (t_name tk) = true /\
  truthy (t_password tk) = true /\ truthy (t_phone tk) = true.

(** [s] contains no ['@']. *)
Definition no_at (s : string) : bool :=
  forallb (fun c => negb (Ascii.eqb c "@"%char)) (list_ascii_of_string s).

(** No two rows of the users table carry the same email. *)
Definition emails_unique (st : state) : Prop :=
  List.NoDup (List.map u_email (users st)).

(** No two rows of the users table carry the same id. *)
Definition ids_unique (st : state) : Prop :=
  List.NoDup (List.map u_id (users st)).

(** ** Concrete states and inputs, for running the handlers *)

(** A fresh database and an empty [verification_codes]. *)
Definition empty_state : state :=
  {| users := []; users_seq := 0; verification_codes := ∅ |}.

(** One outstanding ticket, for ["ann@x.com"], expiring at time 1600. *)
Definition ann_ticket : ticket :=
  {| t_code := "012345"; t_expires_at := 1600; t_name := "Ann";
     t_password := "secret"; t_phone := "555" |}.

Definition state_with_ticket : state :=
  {| users := []; users_seq := 0;
     verification_codes := {[ "ann@x.com" := ann_ticket ]} |}.

(** A users table in which the administrator address has a row (as a login
    through Firebase with that address leaves behind). *)
Definition state_with_admin : state :=
  {| users := [{| u_id := 1; u_name := "admin"; u_email := "admin@shophub.com";
                  u_password := tagged_digest "root"; u_phone := Some "" |}];
     users_seq := 1; verification_codes := ∅ |}.

(** A users table that has handed out the last rowid. *)
Definition state_with_last_rowid : state :=
  {| users := [{| u_id := MAX_ROWID; u_name := "zed"; u_email := "zed@z.org";
                  u_password := tagged_digest "zzz"; u_phone := Some "" |}];
     users_seq := MAX_ROWID; verification_codes := ∅ |}.

(** A generator that draws 0, 1, 2, ... and one that always draws 0. *)
Definition count_up : nat -> nat := fun i => i.
Definition zeros : nat -> nat := fun _ => 0%nat.

(** A Firebase directory without profiles. *)
Definition no_profiles : string -> get_user_outcome := fun _ => GetUserRaises.

(** ** The handlers *)

Section Handlers.

(** [str.lower]. *)
Variable lower : string -> string.

(** [hashlib.sha256(s.encode()).hexdigest()]. *)
Variable sha256_hexdigest : string -> string.

(** [str.strip]. *)
Variable strip : string -> string.

(** [os.getenv('ADMIN_EMAIL')]: [None] when the variable is not set. *)
Variable getenv_ADMIN_EMAIL : option string.

(** The module-level [FIREBASE_WEB_API_KEY], the result of
    [load_firebase_api_key] at start-up. *)
Variable FIREBASE_WEB_API_KEY : option string.

(** [os.getenv('ADMIN_EMAIL', 'admin@shophub.com')]. *)
Definition ADMIN_EMAIL : string :=
  match getenv_ADMIN_EMAIL with
  | Some v => v
  | None => "admin@shophub.com"
  end.

(** [hash_password]. *)
Definition hash_password (password : string) : string := sha256_hexdigest password.

(** [verify_password]. *)
Definition verify_password (stored_hash : string) (candidate : string) : bool :=
  if negb (truthy stored_hash) then false
  else String.eqb stored_hash (hash_password candidate).

(** The dict [authenticate_locally] returns. *)
Inductive local_result :=
| LocalOk (user : user_row)                       (* {'success': True, 'user': user, 'status': 200} *)
| LocalFailed (message : string) (status : Z).    (* {'success': False, 'message': ..., 'status': ...} *)

(** [authenticate_locally]. *)
Definition authenticate_locally (email password : string) (st : state) : local_result :=
  match fetch_local_user st email with
  | None => LocalFailed "Invalid email or password" 401
  | Some user =>
      if negb (verify_password (u_password user) password)
      then LocalFailed "Invalid email or password" 401
      else LocalOk user
  end.

(** The name and phone [ensure_local_user_record] writes for a new row:
    the defaults [email.split('@')[0]] and [''], each overridden by the
    Firebase profile when [firebase_uid] is truthy, [get_user] does not
    raise and the profile field is truthy. [get_user] is
    [firebase_auth.get_user]. *)
Definition profile_or_defaults (email : string) (firebase_uid : option string)
    (get_user : string -> get_user_outcome) : string * string :=
  let name := split_at_0 email in
  let phone := "" in
  match firebase_uid with
  | Some uid =>
      if truthy uid then
        match get_user uid with
        | UserRecord display_name phone_number =>
            (match display_name with
             | Some n => if truthy n then n else name
             | None => name
             end,
             match phone_number with
             | Some p => if truthy p then p else phone
             | None => phone
             end)
        | GetUserRaises => (name, phone)
        end
      else (name, phone)
  | None => (name, phone)
  end.

(** [ensure_local_user_record]: the row it returns (the result of the final
    [fetch_local_user]) and the new state; [None] when the INSERT raises, an
    exception the function does not catch. *)
Definition ensure_local_user_record (email password : string)
    (firebase_uid : option string) (get_user : string -> get_user_outcome)
    (st : state) : option (option user_row * state) :=
  match fetch_local_user st email with
  | Some user => Some (Some user, st)
  | None =>
      let '(name, phone) := profile_or_defaults email firebase_uid get_user in
      match insert_user st name email (hash_password password) phone with
      | Some (_, st') => Some (fetch_local_user st' email, st')
      | None => None
      end
  end.

(** [send_verification]: [now] is [time.time()], [rnd] the raw output of
    the random generator and [smtp_ok] the result of
    [send_verification_email]. *)
Definition send_verification (data : register_data) (now : Z)
    (rnd : nat -> nat) (smtp_ok : bool) (st : state) : response * state :=
  match d_name data, d_email data, d_password data, d_phone data with
  | Some name, Some email, Some password, Some phone =>
      if negb (truthy name && truthy email && truthy password && truthy phone)
      then (AllFieldsRequired, st)
      else if found (fetch_local_user st email) then (AlreadyRegistered, st)
      else if String.eqb (lower email) (lower ADMIN_EMAIL) then (ReservedEmail, st)
      else
        let code := generate_verification_code rnd in
        let expires_at := now + VERIFICATION_CODE_EXPIRY in
        let st1 :=
          store_ticket (lower email)
            {| t_code := code; t_expires_at := expires_at; t_name := name;
               t_password := password; t_phone := phone |} st in
        if smtp_ok then (CodeSent, st1)
        else (DeliveryFailed, pop_ticket (lower email) st1)
  | _, _, _, _ => (AllFieldsRequired, st)
  end.

(** [register_user]: [now] is [time.time()] and [create_user] what
    [firebase_auth.create_user] does when it is reached. *)
Definition register_user (data : register_data) (now : Z)
    (create_user : create_user_outcome) (st : state) : response * state :=
  match d_name data, d_email data, d_password data, d_phone data with
  | Some name, Some email, Some password, Some phone =>
      if negb (truthy name && truthy email && truthy password && truthy phone)
      then (AllFieldsRequired, st)
      else
        match d_verification_code data with
        | None => (CodeRequired, st)
        | Some verification_code =>
            if negb (truthy verification_code) then (CodeRequired, st)
            else if found (fetch_local_user st email) then (AlreadyRegistered, st)
            else
              let email_lower := lower email in
              match verification_codes st !! email_lower with
              | None => (CodeNotFound, st)
              | Some stored_data =>
                  if Z.gtb now (t_expires_at stored_data)
                  then (CodeExpired, pop_ticket email_lower st)
                  else if negb (String.eqb (t_code stored_data) verification_code)
                  then (CodeMismatch, st)
                  else if negb (String.eqb (t_name stored_data) name)
                          || negb (String.eqb (t_password stored_data) password)
                          || negb (String.eqb (t_phone stored_data) phone)
                  then (DataMismatch, st)
                  else
                    match create_user with
                    | Created _ =>
                        match insert_user st name email (hash_password password) phone with
                        | Some (user_id, st') =>
                            ((User {| v_id := user_id; v_name := name;
                                      v_email := email; v_phone := phone |}, 200),
                             pop_ticket email_lower st')
                        | None => (RegistrationFailed, pop_ticket email_lower st)
                        end
                    | EmailAlreadyExistsError =>
                        (AlreadyRegistered, pop_ticket email_lower st)
                    | CreateUserError =>
                        (RegistrationFailed, pop_ticket email_lower st)
                    end
              end
        end
  | _, _, _, _ => (AllFieldsRequired, st)
  end.

(** [login_user]: [http] is the outcome of the HTTP call of
    [sign_in_with_firebase] and [get_user] is [firebase_auth.get_user]. *)
Definition login_user (data : login_data) (http : http_outcome)
    (get_user : string -> get_user_outcome) (st : state) : response * state :=
  match l_email data, l_password data with
  | Some email, Some password =>
      if negb (truthy email) || negb (truthy password)
      then (CredentialsRequired, st)
      else
        let firebase_result :=
          if truthy_opt FIREBASE_WEB_API_KEY
          then Some (sign_in_with_firebase http) else None in
        match firebase_result with
        | Some (SignedIn firebase_uid) =>
            match ensure_local_user_record email password firebase_uid get_user st with
            | Some (user, st') => ((build_user_response user, 200), st')
            | None => (UncaughtException, st)
            end
        | _ =>
            let firebase_message :=
              match firebase_result with
              | Some (SignInFailed message _) => Some message
              | _ => None
              end in
            let firebase_status :=
              match firebase_result with
              | Some (SignInFailed _ status) => Some status
              | _ => None
              end in
            match authenticate_locally email password st with
            | LocalOk user => ((build_user_response (Some user), 200), st)
            | LocalFailed error_message error_status =>
                match firebase_message, firebase_status with
                | Some fm, Some fs =>
                    if truthy fm && truthy_int fs && Z.geb fs 500
                    then ((Failure fm, fs), st)
                    else if Z.eqb error_status 401 && truthy fm && Z.eqb fs 401
                    then ((Failure fm, error_status), st)
                    else ((Failure error_message, error_status), st)
                | _, _ => ((Failure error_message, error_status), st)
                end
            end
        end
  | _, _ => (CredentialsRequired, st)
  end.

(** A login request together with what the outside world answers while it
    is served. *)
Record login_attempt := {
  a_data : login_data;
  a_http : http_outcome;
  a_get_user : string -> get_user_outcome
}.

(** Login requests served one after the other: the responses in order and
    the final state. *)
Fixpoint run_logins (attempts : list login_attempt) (st : state)
  : list response * state :=
  match attempts with
  | [] => ([], st)
  | a :: rest =>
      let '(r, st1) := login_user (a_data a) (a_http a) (a_get_user a) st in
      let '(rs, st2) := run_logins rest st1 in
      (r :: rs, st2)
  end.

(** A login for [email] that Firebase accepts. *)
Definition remote_success (email : string) (a : login_attempt) : Prop :=
  exists password firebase_uid,
    a_data a = credentials email password /\
    truthy password = true /\
    sign_in_with_firebase (a_http a) = SignedIn firebase_uid.

(** Firebase supplies neither a display name nor a phone number. *)
Definition no_profile_data (firebase_uid : option string)
    (get_user : string -> get_user_outcome) : Prop :=
  match firebase_uid with
  | Some uid =>
      truthy uid = true ->
      match get_user uid with
      | UserRecord display_name phone_number =>
          truthy_opt display_name = false /\ truthy_opt phone_number = false
      | GetUserRaises => True
      end
  | None => True
  end.

(** [data.get(key, '').strip()]: the default [''] stands in for a missing
    key only, and [None] stands for the AttributeError that [.strip] raises
    on a value that is not a string. *)
Definition get_stripped (field : json_field) : option string :=
  match field with
  | Missing => Some (strip "")
  | Text s => Some (strip s)
  | NotText => None
  end.

(** [submit_feedback]: [data] is [request.json], [None] when it is not a
    JSON object (reading the body or calling [.get] on it then raises), and
    [smtp_ok] is the result of [send_feedback_email]. Every exception ends
    in the [except Exception] branch of the handler. *)
Definition submit_feedback (data : option feedback_data) (smtp_ok : bool)
  : response :=
  match data with
  | None => FeedbackError
  | Some data =>
      match get_stripped (f_name data), get_stripped (f_email data),
            get_stripped (f_phone data), get_stripped (f_query data) with
      | Some name, Some email, Some phone, Some query =>
          if negb (truthy name && truthy email && truthy phone && truthy query)
          then (Failure "All fields are required. Please fill in all the information.", 400)
          else if negb (re_match email_pattern email)
          then (Failure "Please enter a valid email address.", 400)
          else if smtp_ok
          then (Notice "Thank you for your feedback! We have received your message and will get back to you soon.", 200)
          else (Failure "Failed to send feedback. Please try again later or contact us directly.", 500)
      | _, _, _, _ => FeedbackError
      end
  end.

(** The feedback carries four strings (a missing key counting as the empty
    string) that are non-empty after stripping, and the stripped email has
    the accepted shape. *)
Definition feedback_valid (data : option feedback_data) : Prop :=
  exists d name email phone query,
    data = Some d /\
    get_stripped (f_name d) = Some name /\
    get_stripped (f_email d) = Some email /\
    get_stripped (f_phone d) = Some phone /\
    get_stripped (f_query d) = Some query /\
    truthy name = true /\ truthy email = true /\
    truthy phone = true /\ truthy query = true /\
    email_shape email.

(** A request to one of the three routes [/api/users/send-verification],
    [/api/users/register] and [/api/users/login], together with what the
    outside world answers while it is served. *)
Inductive call :=
| SendVerification (data : register_data) (now : Z) (rnd : nat -> nat)
    (smtp_ok : bool)
| RegisterUser (data : register_data) (now : Z) (create_user : create_user_outcome)
| LoginUser (data : login_data) (http : http_outcome)
    (get_user : string -> get_user_outcome).

(** The handler the route of a call selects. *)
Definition serve (c : call) (st : state) : response * state :=
  match c with
  | SendVerification data now rnd smtp_ok => send_verification data now rnd smtp_ok st
  | RegisterUser data now create_user => register_user data now create_user st
  | LoginUser data http get_user => login_user data http get_user st
  end.

(** Calls served one after the other: the responses in order and the
    final state. *)
Fixpoint serve_all (calls : list call) (st : state) : list response * state :=
  match calls with
  | [] => ([], st)
  | c :: rest =>
      let '(r, st1) := serve c st in
      let '(rs, st2) := serve_all rest st1 in
      (r :: rs, st2)
  end.

(** A short session: Ann asks for a code and redeems it, then Bob logs in
    through Firebase for the first time. *)
Definition sample_session : list call :=
  [SendVerification (registration "Ann" "Ann@X.com" "secret" "555" None) 1000
     count_up true;
   RegisterUser (registration "Ann" "Ann@X.com" "secret" "555" (Some "012345"))
     1001 (Created "uid-1");
   LoginUser (credentials "bob@y.org" "hunter2")
     (HttpResponse 200 (Some "uid-2") None) no_profiles].

(** Every ticket of the table is well formed and is stored under the
    lower-cased form of a non-empty email, and no ticket is stored under the
    lower-cased reserved address. *)
Definition tickets_ok (st : state) : Prop :=
  (forall key tk,
      verification_codes st !! key = Some tk ->
      ticket_ok tk /\ exists email, truthy email = true /\ key = lower email) /\
  verification_codes st !! lower ADMIN_EMAIL = None.

(** The remote provider is of no help: no API key is configured, or the
    sign-in fails. *)
Definition remote_unavailable (http : http_outcome) : Prop :=
  truthy_opt FIREBASE_WEB_API_KEY = false \/
  exists message status, sign_in_with_firebase http = SignInFailed message status.

(** The three ways a handler leaves the users table: untouched, or with one
    row appended for an email that had none, under a fresh id. *)
Inductive users_step (st st' : state) : Prop :=
| users_same :
    users st' = users st -> users_seq st' = users_seq st -> users_step st st'
| users_appended row :
    users st' = (users st ++ [row])%list ->
    fetch_local_user st (u_email row) = None ->
    u_id row = Z.max (users_seq st) (max_rowid (users st)) + 1 ->
    users_seq st' = u_id row ->
    users_step st st'.

(** The three ways a handler leaves the ticket table: untouched, with one
    key removed, or with one well-formed ticket stored under the lower-cased
    form of a non-empty, non-reserved email. *)
Inductive codes_step (st st' : state) : Prop :=
| codes_same :
    verification_codes st' = verification_codes st -> codes_step st st'
| codes_removed key :
    verification_codes st' = delete key (verification_codes st) ->
    codes_step st st'
| codes_stored email tk :
    truthy email = true ->
    String.eqb (lower email) (lower ADMIN_EMAIL) = false ->
    ticket_ok tk ->
    verification_codes st' = <[lower email := tk]> (verification_codes st) ->
    codes_step st st'.

(** ** Facts about the users table *)

Lemma filter_none_nil (rows : list user_row) email :
  List.find (fun u => String.eqb (u_email u) email) rows = None ->
  List.filter (fun u => String.eqb (u_email u) email) rows = [].
Proof.
  induction rows as [|u rows IH]; simpl; [reflexivity|].
  destruct (String.eqb (u_email u) email); [discriminate|exact IH].
Qed.

Lemma find_app_fresh (rows : list user_row) email row :
  List.find (fun u => String.eqb (u_email u) email) rows = None ->
  u_email row = email ->
  List.find (fun u => String.eqb (u_email u) email) (rows ++ [row])%list = Some row.
Proof.
  intros Hnone Hrow.
  induction rows as [|u rows IH]; simpl in *.
  - rewrite Hrow, String.eqb_refl. reflexivity.
  - destruct (String.eqb (u_email u) email); [discriminate|auto].
Qed.

(** An INSERT for an email no row carries succeeds, appends exactly the
    new row and leaves the tickets alone. *)
Lemma insert_user_fresh st name email password_hash phone :
  fetch_local_user st email = None ->
  rowid_available st ->
  exists new_id st',
    insert_user st name email password_hash phone = Some (new_id, st') /\
    users st' = (users st ++
      [{| u_id := new_id; u_name := name; u_email := email;
          u_password := password_hash; u_phone := Some phone |}])%list /\
    verification_codes st' = verification_codes st.
Proof.
  intros Hnone Hroom. unfold insert_user. rewrite Hnone.
  apply Z.ltb_lt in Hroom. rewrite Hroom.
  eexists _, _. split; [reflexivity|]. split; reflexivity.
Qed.

(** With its rowids used up the table refuses the INSERT. *)
Lemma insert_user_full st name email password_hash phone :
  ~ rowid_available st ->
  insert_user st name email password_hash phone = None.
Proof.
  intros Hfull. unfold insert_user.
  destruct (fetch_local_user st email); [reflexivity|].
  destruct (Z.ltb (largest_rowid st) MAX_ROWID) eqn:Hlt; [|reflexivity].
  apply Z.ltb_lt in Hlt. contradiction.
Qed.

Lemma fetch_after_append st st' email row :
  fetch_local_user st email = None ->
  users st' = (users st ++ [row])%list ->
  u_email row = email ->
  fetch_local_user st' email = Some row /\
  List.filter (fun u => String.eqb (u_email u) email) (users st') = [row].
Proof.
  unfold fetch_local_user. intros Hnone Husers Hrow. rewrite Husers. split.
  - apply find_app_fresh; assumption.
  - rewrite List.filter_app, (filter_none_nil _ _ Hnone). simpl.
    rewrite Hrow, String.eqb_refl. reflexivity.
Qed.

Lemma fetch_pop_ticket key st email :
  fetch_local_user (pop_ticket key st) email = fetch_local_user st email.
Proof. reflexivity. Qed.

Lemma lookup_pop_ticket key st :
  verification_codes (pop_ticket key st) !! key = None.
Proof. unfold pop_ticket; simpl. apply lookup_delete_eq. Qed.

Lemma lookup_store_ticket key tk st :
  verification_codes (store_ticket key tk st) !! key = Some tk.
Proof. unfold store_ticket; simpl. apply lookup_insert_eq. Qed.

(** A generated code is never the empty string. *)
Lemma generated_code_truthy rnd : truthy (generate_verification_code rnd) = true.
Proof. reflexivity. Qed.

(** ** Facts about [register_user] *)

(** [time.time() > expires_at] as a proposition. *)
Lemma not_expired now expires_at : now <= expires_at -> Z.gtb now expires_at = false.
Proof. intros H. rewrite Z.gtb_ltb. apply Z.ltb_ge. exact H. Qed.

Lemma expired now expires_at : expires_at < now -> Z.gtb now expires_at = true.
Proof. intros H. rewrite Z.gtb_ltb. apply Z.ltb_lt. exact H. Qed.

Lemma well_formed_all name email password phone :
  well_formed name email password phone ->
  negb (truthy name && truthy email && truthy password && truthy phone) = false.
Proof. intros (-> & -> & -> & ->). reflexivity. Qed.

(** Redeeming the ticket's own code with the ticket's own data before the
    ticket expires, when Firebase creates the account: the row is written,
    the ticket removed. *)
Lemma redeem_creates name email password phone code now uid st tk :
  well_formed name email password phone ->
  fetch_local_user st email = None ->
  rowid_available st ->
  verification_codes st !! lower email = Some tk ->
  now <= t_expires_at tk ->
  t_code tk = code -> truthy code = true ->
  t_name tk = name -> t_password tk = password -> t_phone tk = phone ->
  exists new_id st2,
    register_user (registration name email password phone (Some code)) now
      (Created uid) st
    = ((User {| v_id := new_id; v_name := name; v_email := email;
                v_phone := phone |}, 200), st2) /\
    users st2 = (users st ++
      [{| u_id := new_id; u_name := name; u_email := email;
          u_password := hash_password password; u_phone := Some phone |}])%list /\
    verification_codes st2 = delete (lower email) (verification_codes st).
Proof.
  intros Hwf Hnone Hroom Htk Hnow Hcode Hc Hn Hp Hph.
  destruct (insert_user_fresh st name email (hash_password password) phone Hnone
              Hroom) as (new_id & st' & Hins & Husers & Hcodes).
  exists new_id, (pop_ticket (lower email) st').
  unfold register_user, registration; simpl.
  rewrite (well_formed_all _ _ _ _ Hwf), Hc, Hnone; simpl.
  rewrite Htk.
  rewrite (not_expired _ _ Hnow).
  rewrite Hcode, Hn, Hp, Hph, !String.eqb_refl; simpl.
  rewrite Hins. split; [reflexivity|]. simpl. split; [exact Husers|].
  rewrite Hcodes. reflexivity.
Qed.

Ltac pass_gates Hwf Hc Hnone :=
  unfold register_user, registration; simpl;
  rewrite (well_formed_all _ _ _ _ Hwf), Hc, Hnone; simpl.

(** Once a ticket is stored for the email, no redeem answers
    "code not found", whatever it submits. *)
Lemma redeem_with_ticket_not_CodeNotFound data now create st email tk :
  d_email data = Some email ->
  verification_codes st !! lower email = Some tk ->
  fst (register_user data now create st) <> CodeNotFound.
Proof.
  intros He Htk. unfold register_user. rewrite He.
  destruct (d_name data), (d_password data), (d_phone data); try discriminate.
  destruct (negb _); [discriminate|].
  destruct (d_verification_code data); [|discriminate].
  destruct (negb (truthy _)); [discriminate|].
  destruct (found _); [discriminate|].
  rewrite Htk.
  destruct (Z.gtb _ _); [discriminate|].
  destruct (negb (String.eqb _ _)); [discriminate|].
  destruct (_ || _); [discriminate|].
  destruct create; [|discriminate|discriminate].
  destruct (insert_user _ _ _ _ _) as [[? ?]|]; discriminate.
Qed.

(** What [send_verification] does to a request that passes its three
    checks. *)
Lemma send_verification_checked name email password phone code now rnd smtp_ok st :
  well_formed name email password phone ->
  fetch_local_user st email = None ->
  String.eqb (lower email) (lower ADMIN_EMAIL) = false ->
  send_verification (registration name email password phone code) now rnd smtp_ok st
  = let st1 :=
      store_ticket (lower email)
        {| t_code := generate_verification_code rnd;
           t_expires_at := now + VERIFICATION_CODE_EXPIRY;
           t_name := name; t_password := password; t_phone := phone |} st in
    if smtp_ok then (CodeSent, st1)
    else (DeliveryFailed, pop_ticket (lower email) st1).
Proof.
  intros Hwf Hnone Hadmin. unfold send_verification, registration; simpl.
  rewrite (well_formed_all _ _ _ _ Hwf), Hnone; simpl. rewrite Hadmin.
  reflexivity.
Qed.

(** ** The claims *)

(** A redeem for an email that already has a user row stops at the first
    check after the presence checks. *)
Lemma already_registered_redeem name email password phone code now create st user :
  well_formed name email password phone -> truthy code = true ->
  fetch_local_user st email = Some user ->
  register_user (registration name email password phone (Some code)) now create st
  = (AlreadyRegistered, st).
Proof.
  intros Hwf Hc Hfetch. unfold register_user, registration; simpl.
  rewrite (well_formed_all _ _ _ _ Hwf), Hc, Hfetch. reflexivity.
Qed.

(** A redeem with the ticket's code but other data than the ticket's stops
    at the data check, and the state stays as it was. *)
Lemma redeem_data_mismatch name email password phone code now create st tk :
  well_formed name email password phone ->
  truthy code = true ->
  fetch_local_user st email = None ->
  verification_codes st !! lower email = Some tk ->
  now <= t_expires_at tk ->
  t_code tk = code ->
  t_name tk <> name \/ t_password tk <> password \/ t_phone tk <> phone ->
  register_user (registration name email password phone (Some code)) now create st
  = (DataMismatch, st).
Proof.
  intros Hwf Hc Hnone Htk Hnow Hcode Hdiff.
  pass_gates Hwf Hc Hnone.
  rewrite Htk, (not_expired _ _ Hnow), Hcode.
  rewrite String.eqb_refl; simpl.
  assert (negb (String.eqb (t_name tk) name)
          || negb (String.eqb (t_password tk) password)
          || negb (String.eqb (t_phone tk) phone) = true) as ->.
  { destruct Hdiff as [H|[H|H]]; apply String.eqb_neq in H; rewrite H; simpl;
      rewrite ?orb_true_r; reflexivity. }
  reflexivity.
Qed.

(** C1, as amended. For every email E that no user row carries and that is
    not the reserved administrator address (compared through [lower]), and
    for non-empty name, E, password and phone, when the verification email
    is delivered, Firebase creates the account and the users table can
    still take a row (its largest rowid is below 2^63 - 1):
    RequestVerification(name, E, password, phone) reports "code sent" and
    stores a ticket for E; Redeem with that ticket's code and the same
    (name, password, phone), no later than the ticket's expiry, succeeds
    with the new user's id, name, email and phone; afterwards exactly one
    user row is stored for E and it carries the submitted name, email and
    phone. *)
Theorem request_then_redeem_registers name E password phone now now' rnd uid st :
  well_formed name E password phone ->
  fetch_local_user st E = None ->
  String.eqb (lower E) (lower ADMIN_EMAIL) = false ->
  rowid_available st ->
  now' <= now + VERIFICATION_CODE_EXPIRY ->
  exists st1 tk new_id st2 row,
    send_verification (registration name E password phone None) now rnd true st
      = (CodeSent, st1) /\
    verification_codes st1 !! lower E = Some tk /\
    register_user (registration name E password phone (Some (t_code tk))) now'
      (Created uid) st1
    = ((User {| v_id := new_id; v_name := name; v_email := E;
                v_phone := phone |}, 200), st2) /\
    List.filter (fun u => String.eqb (u_email u) E) (users st2) = [row] /\
    records_for st2 E = 1%nat /\
    u_name row = name /\ u_email row = E /\ u_phone row = Some phone.
Proof.
  intros Hwf Hnone Hadmin Hroom Hnow.
  pose proof (send_verification_checked name E password phone None now rnd true st
                Hwf Hnone Hadmin) as Hsend.
  simpl in Hsend.
  set (tk := {| t_code := generate_verification_code rnd;
                t_expires_at := now + VERIFICATION_CODE_EXPIRY;
                t_name := name; t_password := password; t_phone := phone |}) in *.
  set (st1 := store_ticket (lower E) tk st) in *.
  destruct (redeem_creates name E password phone (t_code tk) now' uid st1 tk)
    as (new_id & st2 & Hreg & Husers & _); try reflexivity; try assumption.
  { apply lookup_store_ticket. }
  destruct (fetch_after_append st1 st2 E _ Hnone Husers eq_refl) as [_ Hfilter].
  eexists st1, tk, new_id, st2, _.
  split; [exact Hsend|]. split; [apply lookup_store_ticket|].
  split; [exact Hreg|]. split; [exact Hfilter|].
  split; [unfold records_for; rewrite Hfilter; reflexivity|].
  simpl. auto.
Qed.

(** C2, as amended. For every outstanding, unexpired ticket, a Redeem that
    carries four non-empty fields and a non-empty code equal to the
    ticket's code, but whose (name, password, phone) differ from the
    ticket's pending values, never removes the ticket: it fails with
    DataMismatch when the email has no user row and with AlreadyRegistered
    when it has one, and in both cases the state is left as it was. A
    subsequent Redeem for the same email with the original code therefore
    never fails with CodeNotFound; presented with the ticket's pending
    values (themselves non-empty) no later than the expiry, while the email
    has no user row, Firebase creates the account and the users table can
    take a row (its largest rowid is below 2^63 - 1), it succeeds. *)
Theorem data_mismatch_keeps_ticket name email password phone code now create st tk :
  well_formed name email password phone ->
  truthy code = true ->
  verification_codes st !! lower email = Some tk ->
  now <= t_expires_at tk ->
  t_code tk = code ->
  t_name tk <> name \/ t_password tk <> password \/ t_phone tk <> phone ->
  (fetch_local_user st email = None ->
   register_user (registration name email password phone (Some code)) now create st
     = (DataMismatch, st)) /\
  (forall user, fetch_local_user st email = Some user ->
   register_user (registration name email password phone (Some code)) now create st
     = (AlreadyRegistered, st)) /\
  (forall name' password' phone' now2 create2,
      fst (register_user (registration name' email password' phone' (Some code))
             now2 create2 st) <> CodeNotFound) /\
  (forall now2 uid,
      now2 <= t_expires_at tk ->
      well_formed (t_name tk) email (t_password tk) (t_phone tk) ->
      fetch_local_user st email = None ->
      rowid_available st ->
      exists new_id st2,
        register_user
          (registration (t_name tk) email (t_password tk) (t_phone tk) (Some code))
          now2 (Created uid) st
        = ((User {| v_id := new_id; v_name := t_name tk; v_email := email;
                    v_phone := t_phone tk |}, 200), st2)).
Proof.
  intros Hwf Hc Htk Hnow Hcode Hdiff. split; [|split; [|split]].
  - intros Hnone. eapply redeem_data_mismatch; eassumption.
  - intros user Hfetch. eapply already_registered_redeem; eassumption.
  - intros. eapply redeem_with_ticket_not_CodeNotFound; [reflexivity|exact Htk].
  - intros now2 uid Hnow2 Hwf' Hnone Hroom.
    destruct (redeem_creates (t_name tk) email (t_password tk) (t_phone tk) code
                now2 uid st tk) as (new_id & st2 & Hreg & _); auto.
    exists new_id, st2. exact Hreg.
Qed.

(** C3, as amended. For every outstanding, unexpired ticket for an email
    that has no user row, a Redeem that carries four non-empty fields and a
    non-empty code that differs from the ticket's code fails with
    CodeMismatch and leaves the state, the ticket included, unchanged; a
    subsequent Redeem for the same email with the ticket's code and pending
    data (themselves non-empty), no later than the expiry, still succeeds
    when Firebase creates the account and the users table can take a row
    (its largest rowid is below 2^63 - 1), leaving exactly one user row for
    the email and no ticket. When the email has a user row (a login created
    it after the code was sent), the Redeem fails with AlreadyRegistered
    instead, and the state is unchanged as well. *)
Theorem code_mismatch_keeps_ticket name email password phone code now create st tk :
  well_formed name email password phone ->
  truthy code = true ->
  verification_codes st !! lower email = Some tk ->
  now <= t_expires_at tk ->
  t_code tk <> code ->
  (fetch_local_user st email = None ->
   register_user (registration name email password phone (Some code)) now create st
     = (CodeMismatch, st) /\
   (forall now2 uid,
       now2 <= t_expires_at tk ->
       well_formed (t_name tk) email (t_password tk) (t_phone tk) ->
       truthy (t_code tk) = true ->
       rowid_available st ->
       exists new_id st2,
         register_user
           (registration (t_name tk) email (t_password tk) (t_phone tk)
              (Some (t_code tk)))
           now2 (Created uid) st
         = ((User {| v_id := new_id; v_name := t_name tk; v_email := email;
                     v_phone := t_phone tk |}, 200), st2) /\
         records_for st2 email = 1%nat /\
         verification_codes st2 !! lower email = None)) /\
  (forall user, fetch_local_user st email = Some user ->
   register_user (registration name email password phone (Some code)) now create st
     = (AlreadyRegistered, st)).
Proof.
  intros Hwf Hc Htk Hnow Hcode. split.
  - intros Hnone. split.
    + pass_gates Hwf Hc Hnone. rewrite Htk, (not_expired _ _ Hnow).
      apply String.eqb_neq in Hcode. rewrite Hcode. reflexivity.
    + intros now2 uid Hnow2 Hwf' Hc' Hroom.
      destruct (redeem_creates (t_name tk) email (t_password tk) (t_phone tk)
                  (t_code tk) now2 uid st tk)
        as (new_id & st2 & Hreg & Husers & Hcodes); auto.
      exists new_id, st2. split; [exact Hreg|]. split.
      * destruct (fetch_after_append st st2 email _ Hnone Husers eq_refl) as [_ Hf].
        unfold records_for. rewrite Hf. reflexivity.
      * rewrite Hcodes. apply lookup_delete_eq.
  - intros user Hfetch. eapply already_registered_redeem; eassumption.
Qed.

(** C4, as amended. For every outstanding ticket whose expiry lies in the
    past, for an email that has no user row, a Redeem that carries four
    non-empty fields and a non-empty code fails with CodeExpired, removes
    the ticket and leaves the users table as it was; the same Redeem
    repeated at any later time fails with CodeNotFound. When the email has
    a user row (a login created it after the code was sent), the Redeem
    fails with AlreadyRegistered instead and the state, the expired ticket
    included, stays as it was. *)
Theorem expired_ticket_is_purged name email password phone code now create st tk :
  well_formed name email password phone ->
  truthy code = true ->
  verification_codes st !! lower email = Some tk ->
  t_expires_at tk < now ->
  (fetch_local_user st email = None ->
   exists st',
     register_user (registration name email password phone (Some code)) now create st
       = (CodeExpired, st') /\
     verification_codes st' !! lower email = None /\
     users st' = users st /\
     (forall now2 create2,
         register_user (registration name email password phone (Some code))
           now2 create2 st'
         = (CodeNotFound, st'))) /\
  (forall user, fetch_local_user st email = Some user ->
   register_user (registration name email password phone (Some code)) now create st
     = (AlreadyRegistered, st)).
Proof.
  intros Hwf Hc Htk Hexp. split.
  - intros Hnone. exists (pop_ticket (lower email) st).
    split; [|split; [apply lookup_pop_ticket|split; [reflexivity|]]].
    + pass_gates Hwf Hc Hnone. rewrite Htk, (expired _ _ Hexp). reflexivity.
    + intros now2 create2.
      pass_gates Hwf Hc (eq_trans (fetch_pop_ticket (lower email) st email) Hnone).
      rewrite lookup_delete_eq. reflexivity.
  - intros user Hfetch. eapply already_registered_redeem; eassumption.
Qed.

(** C5, as amended. For every RequestVerification that reaches the Notifier
    and whose delivery fails, the ticket just stored is removed (no ticket
    remains for that email, the users table is untouched) and the operation
    fails with DeliveryFailed, whose HTTP status is 500. *)
Theorem delivery_failure_rolls_back name email password phone code now rnd st :
  well_formed name email password phone ->
  fetch_local_user st email = None ->
  String.eqb (lower email) (lower ADMIN_EMAIL) = false ->
  exists st',
    send_verification (registration name email password phone code) now rnd false st
      = (DeliveryFailed, st') /\
    verification_codes st' !! lower email = None /\
    verification_codes st' = delete (lower email) (verification_codes st) /\
    users st' = users st /\
    succeeded DeliveryFailed = false /\
    snd DeliveryFailed = 500.
Proof.
  intros Hwf Hnone Hadmin.
  rewrite (send_verification_checked _ _ _ _ code now rnd false st Hwf Hnone Hadmin).
  simpl. eexists. split; [reflexivity|]. simpl.
  split; [apply lookup_delete_eq|]. split; [apply delete_insert_eq|].
  repeat split.
Qed.

(** C6, as amended. The ticket table holds one ticket per lower-cased
    email. Take two RequestVerification calls, each with four non-empty
    fields, whose emails have the same lower-cased form, have no user row
    and are not the reserved address, and whose emails are both delivered:
    both report "code sent", and the second overwrites the first ticket
    with its own code, expiry and data, whatever the first held, without
    adding a key to the table. Afterwards a Redeem for the first request's
    email that carries four non-empty fields and presents the first
    ticket's code, no later than the second ticket's expiry, fails with
    CodeMismatch provided the second code differs from the first. The two
    codes are drawn independently and may coincide: then the same Redeem
    passes the code check and is judged on its data alone, failing with
    DataMismatch when its (name, password, phone) differ from the second
    request's, and succeeding when they equal them, Firebase creates the
    account and the users table can take a row (its largest rowid is below
    2^63 - 1). *)
Theorem second_request_replaces_ticket
    name1 email1 password1 phone1 now1 rnd1
    name2 email2 password2 phone2 now2 rnd2 st :
  well_formed name1 email1 password1 phone1 ->
  well_formed name2 email2 password2 phone2 ->
  fetch_local_user st email1 = None ->
  fetch_local_user st email2 = None ->
  lower email2 = lower email1 ->
  String.eqb (lower email1) (lower ADMIN_EMAIL) = false ->
  let code1 := generate_verification_code rnd1 in
  let tk2 := {| t_code := generate_verification_code rnd2;
                t_expires_at := now2 + VERIFICATION_CODE_EXPIRY;
                t_name := name2; t_password := password2; t_phone := phone2 |} in
  exists st1 st2,
    send_verification (registration name1 email1 password1 phone1 None) now1 rnd1
      true st = (CodeSent, st1) /\
    t_code <$> verification_codes st1 !! lower email1 = Some code1 /\
    send_verification (registration name2 email2 password2 phone2 None) now2 rnd2
      true st1 = (CodeSent, st2) /\
    verification_codes st2 !! lower email1 = Some tk2 /\
    verification_codes st2 = <[lower email1 := tk2]> (verification_codes st) /\
    dom (verification_codes st2) = dom (verification_codes st1) /\
    (code1 <> t_code tk2 ->
     forall name password phone now3 create,
       well_formed name email1 password phone ->
       now3 <= t_expires_at tk2 ->
       register_user (registration name email1 password phone (Some code1)) now3
         create st2 = (CodeMismatch, st2)) /\
    (code1 = t_code tk2 ->
     (forall name password phone now3 create,
         well_formed name email1 password phone ->
         now3 <= t_expires_at tk2 ->
         name2 <> name \/ password2 <> password \/ phone2 <> phone ->
         register_user (registration name email1 password phone (Some code1)) now3
           create st2 = (DataMismatch, st2)) /\
     (forall now3 uid,
         now3 <= t_expires_at tk2 ->
         rowid_available st ->
         exists new_id st3,
           register_user (registration name2 email1 password2 phone2 (Some code1))
             now3 (Created uid) st2
           = ((User {| v_id := new_id; v_name := name2; v_email := email1;
                       v_phone := phone2 |}, 200), st3))).
Proof.
  intros Hwf1 Hwf2 Hnone1 Hnone2 Hlow Hadmin code1 tk2.
  pose proof (send_verification_checked name1 email1 password1 phone1 None now1 rnd1
                true st Hwf1 Hnone1 Hadmin) as Hsend1.
  simpl in Hsend1.
  set (tk1 := {| t_code := generate_verification_code rnd1;
                 t_expires_at := now1 + VERIFICATION_CODE_EXPIRY;
                 t_name := name1; t_password := password1; t_phone := phone1 |}) in *.
  set (st1 := store_ticket (lower email1) tk1 st) in *.
  assert (String.eqb (lower email2) (lower ADMIN_EMAIL) = false) as Hadmin2
    by (rewrite Hlow; exact Hadmin).
  pose proof (send_verification_checked name2 email2 password2 phone2 None now2 rnd2
                true st1 Hwf2 Hnone2 Hadmin2) as Hsend2.
  simpl in Hsend2. rewrite Hlow in Hsend2. fold tk2 in Hsend2.
  set (st2 := store_ticket (lower email1) tk2 st1) in *.
  exists st1, st2.
  split; [exact Hsend1|].
  split; [unfold st1; rewrite lookup_store_ticket; reflexivity|].
  split; [exact Hsend2|].
  split; [apply lookup_store_ticket|].
  split; [unfold st2, st1, store_ticket; simpl; apply insert_insert_eq|].
  split.
  { unfold st2, st1, store_ticket; simpl.
    rewrite insert_insert_eq, !dom_insert_L. reflexivity. }
  assert (truthy code1 = true) as Hc1 by apply generated_code_truthy.
  assert (fetch_local_user st2 email1 = None) as Hnone by exact Hnone1.
  assert (verification_codes st2 !! lower email1 = Some tk2) as Htk2
    by apply lookup_store_ticket.
  clearbody code1. split.
  - intros Hdiff name password phone now3 create Hwf Hnow3.
    pass_gates Hwf Hc1 Hnone.
    change (verification_codes st2 !! lower email1) with
      (<[lower email1 := tk2]> (verification_codes st1) !! lower email1).
    rewrite lookup_insert_eq, (not_expired _ _ Hnow3).
    assert (String.eqb (t_code tk2) code1 = false) as ->
      by (apply String.eqb_neq; intros Heq; apply Hdiff; symmetry; exact Heq).
    reflexivity.
  - intros Hsame. split.
    + intros name password phone now3 create Hwf Hnow3 Hdiff.
      apply (redeem_data_mismatch name email1 password phone code1 now3 create st2
               tk2 Hwf Hc1 Hnone Htk2 Hnow3 (eq_sym Hsame) Hdiff).
    + intros now3 uid Hnow3 Hroom.
      destruct Hwf1 as (_ & He1 & _). destruct Hwf2 as (Hn2 & _ & Hp2 & Hph2).
      destruct (redeem_creates name2 email1 password2 phone2 code1 now3 uid st2 tk2)
        as (new_id & st3 & Hreg & _); auto.
      * repeat split; assumption.
      * exists new_id, st3. exact Hreg.
Qed.

(** C7, as amended. For every state of the users table, a well-formed
    RequestVerification with the reserved administrator email (compared
    through [lower]) fails with status 400 and changes nothing: with
    ReservedEmail when no user row carries that email, and with
    AlreadyRegistered when one does, because the handler consults the users
    table first. *)
Theorem reserved_email_is_rejected name email password phone code now rnd smtp_ok st :
  well_formed name email password phone ->
  String.eqb (lower email) (lower ADMIN_EMAIL) = true ->
  send_verification (registration name email password phone code) now rnd smtp_ok st
    = (if found (fetch_local_user st email) then AlreadyRegistered else ReservedEmail,
       st) /\
  snd AlreadyRegistered = 400 /\ snd ReservedEmail = 400 /\
  succeeded AlreadyRegistered = false /\ succeeded ReservedEmail = false.
Proof.
  intros Hwf Hadmin. split; [|repeat split].
  unfold send_verification, registration; simpl.
  rewrite (well_formed_all _ _ _ _ Hwf); simpl.
  destruct (found (fetch_local_user st email)); [reflexivity|].
  rewrite Hadmin. reflexivity.
Qed.

(** ** Facts about the login chain *)

(** Every failure message of [sign_in_with_firebase] is a non-empty string
    and its status is 401 or 503. *)
Lemma sign_in_failure_shape http message status :
  sign_in_with_firebase http = SignInFailed message status ->
  truthy message = true /\ (status = 401 \/ status = 503).
Proof.
  destruct http as [|status_code localId error_code]; simpl.
  - intros [= <- <-]. split; [reflexivity|right; reflexivity].
  - destruct (Z.eqb status_code 200); [discriminate|].
    intros [= <- <-]. split; [|left; reflexivity].
    unfold friendly_message. destruct error_code as [c|]; [|reflexivity].
    repeat (match goal with |- context [String.eqb c ?s] => destruct (String.eqb c s) end;
            try reflexivity).
Qed.

Lemma profile_defaults email firebase_uid get_user :
  no_profile_data firebase_uid get_user ->
  profile_or_defaults email firebase_uid get_user = (split_at_0 email, "").
Proof.
  unfold no_profile_data, profile_or_defaults.
  destruct firebase_uid as [uid|]; [|reflexivity].
  destruct (truthy uid); [|reflexivity].
  intros H. specialize (H eq_refl).
  destruct (get_user uid) as [|display_name phone_number]; [reflexivity|].
  destruct H as [Hn Hp].
  destruct display_name as [n|], phone_number as [p|]; simpl in *;
    rewrite ?Hn, ?Hp; reflexivity.
Qed.

(** An existing row is returned and nothing is written. *)
Lemma ensure_existing email password firebase_uid get_user st user :
  fetch_local_user st email = Some user ->
  ensure_local_user_record email password firebase_uid get_user st
  = Some (Some user, st).
Proof. intros H. unfold ensure_local_user_record. rewrite H. reflexivity. Qed.

(** On first sight one row is appended and returned, if the table can take
    it. *)
Lemma ensure_fresh email password firebase_uid get_user st :
  fetch_local_user st email = None ->
  rowid_available st ->
  exists new_id st',
    let row := {| u_id := new_id;
                  u_name := fst (profile_or_defaults email firebase_uid get_user);
                  u_email := email;
                  u_password := hash_password password;
                  u_phone := Some (snd (profile_or_defaults email firebase_uid get_user)) |} in
    ensure_local_user_record email password firebase_uid get_user st
      = Some (Some row, st') /\
    users st' = (users st ++ [row])%list /\
    verification_codes st' = verification_codes st /\
    fetch_local_user st' email = Some row /\
    List.filter (fun u => String.eqb (u_email u) email) (users st') = [row].
Proof.
  intros Hnone Hroom. unfold ensure_local_user_record. rewrite Hnone.
  destruct (profile_or_defaults email firebase_uid get_user) as [name phone]; simpl.
  destruct (insert_user_fresh st name email (hash_password password) phone Hnone
              Hroom) as (new_id & st' & Hins & Husers & Hcodes).
  destruct (fetch_after_append st st' email _ Hnone Husers eq_refl) as [Hfetch Hfilter].
  exists new_id, st'. rewrite Hins, Hfetch. auto.
Qed.

(** On first sight, with the rowids used up, the INSERT raises. *)
Lemma ensure_full email password firebase_uid get_user st :
  fetch_local_user st email = None ->
  ~ rowid_available st ->
  ensure_local_user_record email password firebase_uid get_user st = None.
Proof.
  intros Hnone Hfull. unfold ensure_local_user_record. rewrite Hnone.
  destruct (profile_or_defaults email firebase_uid get_user) as [name phone].
  rewrite (insert_user_full _ _ _ _ _ Hfull). reflexivity.
Qed.

Lemma rowid_available_dec st : {rowid_available st} + {~ rowid_available st}.
Proof. apply Z_lt_dec. Qed.

(** A login Firebase accepts, for an email that already has a row, answers
    with that row and writes nothing. *)
Lemma login_remote_existing email password firebase_uid http get_user st user :
  truthy_opt FIREBASE_WEB_API_KEY = true ->
  truthy email = true -> truthy password = true ->
  sign_in_with_firebase http = SignedIn firebase_uid ->
  fetch_local_user st email = Some user ->
  login_user (credentials email password) http get_user st
  = ((build_user_response (Some user), 200), st).
Proof.
  intros Hkey He Hp Hsign Hfetch. unfold login_user, credentials; simpl.
  rewrite He, Hp, Hkey, Hsign; simpl.
  rewrite (ensure_existing _ _ _ _ _ _ Hfetch). reflexivity.
Qed.

Lemma run_logins_existing email st user attempts :
  truthy_opt FIREBASE_WEB_API_KEY = true ->
  truthy email = true ->
  fetch_local_user st email = Some user ->
  Forall (remote_success email) attempts ->
  run_logins attempts st
  = (repeat (build_user_response (Some user), 200) (length attempts), st).
Proof.
  intros Hkey He Hfetch Hall.
  induction Hall as [|a rest (password & uid & Hdata & Hp & Hsign) _ IH];
    [reflexivity|].
  simpl. rewrite Hdata.
  rewrite (login_remote_existing email password uid _ _ st user Hkey He Hp Hsign Hfetch).
  rewrite IH. reflexivity.
Qed.

(** C8. For every login with the remote provider configured in which the
    remote sign-in fails with a status of 500 or more (503 for a network
    error or timeout) and the local check fails as well (no row, or the
    password does not match), the response carries the message and the
    status of the remote failure, not the local 401, and the state is
    unchanged. *)
Theorem remote_outage_wins email password http get_user st
    remote_message remote_status local_message local_status :
  truthy_opt FIREBASE_WEB_API_KEY = true ->
  truthy email = true -> truthy password = true ->
  sign_in_with_firebase http = SignInFailed remote_message remote_status ->
  500 <= remote_status ->
  authenticate_locally email password st = LocalFailed local_message local_status ->
  login_user (credentials email password) http get_user st
    = ((Failure remote_message, remote_status), st) /\
  local_status = 401 /\
  remote_status = 503 /\
  remote_message = "Authentication service is unreachable. Please try again shortly.".
Proof.
  intros Hkey He Hp Hsign Hge Hlocal.
  destruct (sign_in_failure_shape _ _ _ Hsign) as [Hmsg Hst].
  assert (remote_status = 503) as Hs by lia. subst remote_status.
  split; [|split; [|split; [reflexivity|]]].
  - unfold login_user, credentials; simpl.
    rewrite He, Hp, Hkey, Hsign, Hlocal; simpl. rewrite Hmsg. reflexivity.
  - unfold authenticate_locally in Hlocal.
    destruct (fetch_local_user st email) as [user|]; [|congruence].
    destruct (negb _); congruence.
  - destruct http as [|status_code localId error_code]; simpl in Hsign.
    + congruence.
    + destruct (Z.eqb status_code 200); congruence.
Qed.

(** C9, as amended. EnsureLocalMirror is idempotent per email. A first
    login that Firebase accepts, for an email that has no user row, answers
    with the new row and appends exactly that one row for the email,
    provided the users table can still take a row (its largest rowid is
    below 2^63 - 1); the name of the row is the email's local part and its
    phone the empty string when Firebase supplies no profile data. Every
    further login for that email that Firebase accepts answers with the
    same row and leaves the state as it is, so no duplicate is ever
    created. When the table cannot take a row, the INSERT raises, the login
    ends in an uncaught exception and nothing is created. *)
Theorem ensure_local_mirror_idempotent email password firebase_uid http get_user st :
  truthy_opt FIREBASE_WEB_API_KEY = true ->
  truthy email = true -> truthy password = true ->
  sign_in_with_firebase http = SignedIn firebase_uid ->
  fetch_local_user st email = None ->
  (rowid_available st ->
   exists row st1,
     login_user (credentials email password) http get_user st
       = ((build_user_response (Some row), 200), st1) /\
     users st1 = (users st ++ [row])%list /\
     verification_codes st1 = verification_codes st /\
     List.filter (fun u => String.eqb (u_email u) email) (users st1) = [row] /\
     records_for st1 email = 1%nat /\
     u_email row = email /\
     (no_profile_data firebase_uid get_user ->
        u_name row = split_at_0 email /\ u_phone row = Some "") /\
     (forall attempts,
         Forall (remote_success email) attempts ->
         run_logins attempts st1
         = (repeat (build_user_response (Some row), 200) (length attempts), st1))) /\
  (~ rowid_available st ->
   login_user (credentials email password) http get_user st
     = (UncaughtException, st)).
Proof.
  intros Hkey He Hp Hsign Hnone. split.
  - intros Hroom.
    destruct (ensure_fresh email password firebase_uid get_user st Hnone Hroom)
      as (new_id & st1 & Hens & Husers & Hcodes & Hfetch & Hfilter).
    simpl in *. eexists _, st1.
    split.
    { unfold login_user, credentials; simpl.
      rewrite He, Hp, Hkey, Hsign; simpl. rewrite Hens. reflexivity. }
    split; [exact Husers|]. split; [exact Hcodes|]. split; [exact Hfilter|].
    split; [unfold records_for; rewrite Hfilter; reflexivity|].
    split; [reflexivity|]. split.
    + intros Hnp. simpl. rewrite (profile_defaults email _ _ Hnp). auto.
    + intros attempts Hall.
      apply (run_logins_existing email st1 _ attempts Hkey He Hfetch Hall).
  - intros Hfull. unfold login_user, credentials; simpl.
    rewrite He, Hp, Hkey, Hsign; simpl.
    rewrite (ensure_full _ _ _ _ _ Hnone Hfull). reflexivity.
Qed.

(** C10. For every login request, every answer of the outside world and
    every starting state: a login whose response is a failure leaves the
    users table and the ticket table exactly as they were, and a login that
    changes the state at all is one the remote provider accepted, for an
    email without a user row, and it succeeds and leaves the ticket table
    alone. *)
Theorem failed_login_changes_nothing data http get_user st :
  (succeeded (fst (login_user data http get_user st)) = false ->
   snd (login_user data http get_user st) = st) /\
  (snd (login_user data http get_user st) <> st ->
   truthy_opt FIREBASE_WEB_API_KEY = true /\
   (exists firebase_uid, sign_in_with_firebase http = SignedIn firebase_uid) /\
   (exists email, l_email data = Some email /\ fetch_local_user st email = None) /\
   succeeded (fst (login_user data http get_user st)) = true /\
   verification_codes (snd (login_user data http get_user st))
     = verification_codes st).
Proof.
  unfold login_user.
  destruct (l_email data) as [email|]; [|split; [reflexivity|intros H; destruct H; reflexivity]].
  destruct (l_password data) as [password|]; [|split; [reflexivity|intros H; destruct H; reflexivity]].
  destruct (negb (truthy email) || negb (truthy password));
    [split; [reflexivity|intros H; destruct H; reflexivity]|].
  destruct (truthy_opt FIREBASE_WEB_API_KEY) eqn:Hkey; simpl.
  - destruct (sign_in_with_firebase http) as [firebase_uid|message status] eqn:Hsign.
    + destruct (fetch_local_user st email) as [user|] eqn:Hfetch.
      * rewrite (ensure_existing _ _ _ _ _ _ Hfetch); simpl.
        split; [reflexivity|intros H; destruct H; reflexivity].
      * destruct (rowid_available_dec st) as [Hroom|Hfull].
        -- destruct (ensure_fresh email password firebase_uid get_user st Hfetch
                       Hroom) as (new_id & st1 & Hens & _ & Hcodes & _).
           simpl in Hens. rewrite Hens; simpl.
           split; [discriminate|]. intros _.
           split; [reflexivity|]. split; [exists firebase_uid; reflexivity|].
           split; [exists email; split; [reflexivity|exact Hfetch]|].
           split; [reflexivity|exact Hcodes].
        -- rewrite (ensure_full _ _ _ _ _ Hfetch Hfull); simpl.
           split; [reflexivity|intros H; destruct H; reflexivity].
    + destruct (authenticate_locally email password st) as [user|m s]; simpl.
      * split; [reflexivity|intros H; destruct H; reflexivity].
      * destruct (truthy message && truthy_int status && Z.geb status 500);
          [split; [reflexivity|intros H; destruct H; reflexivity]|].
        destruct (Z.eqb s 401 && truthy message && Z.eqb status 401);
          split; try reflexivity; intros H; destruct H; reflexivity.
  - destruct (authenticate_locally email password st) as [user|m s]; simpl;
      split; try reflexivity; intros H; destruct H; reflexivity.
Qed.

(** ** What each handler can do to the state *)

Lemma insert_user_inv st name email password_hash phone new_id st' :
  insert_user st name email password_hash phone = Some (new_id, st') ->
  fetch_local_user st email = None /\
  new_id = Z.max (users_seq st) (max_rowid (users st)) + 1 /\
  users st' = (users st ++
    [{| u_id := new_id; u_name := name; u_email := email;
        u_password := password_hash; u_phone := Some phone |}])%list /\
  users_seq st' = new_id /\
  verification_codes st' = verification_codes st.
Proof.
  unfold insert_user. destruct (fetch_local_user st email); [discriminate|].
  destruct (Z.ltb (largest_rowid st) MAX_ROWID); [|discriminate].
  intros [= <- <-]. simpl. auto.
Qed.

Lemma insert_user_room st name email password_hash phone new_id st' :
  insert_user st name email password_hash phone = Some (new_id, st') ->
  rowid_available st.
Proof.
  unfold insert_user. destruct (fetch_local_user st email); [discriminate|].
  destruct (Z.ltb (largest_rowid st) MAX_ROWID) eqn:Hlt; [|discriminate].
  intros _. apply Z.ltb_lt. exact Hlt.
Qed.

Lemma users_step_insert st name email password_hash phone new_id st' st'' :
  insert_user st name email password_hash phone = Some (new_id, st') ->
  users st'' = users st' -> users_seq st'' = users_seq st' ->
  users_step st st''.
Proof.
  intros Hins Hu Hs.
  destruct (insert_user_inv _ _ _ _ _ _ _ Hins) as (Hnone & Hid & Husers & Hseq & _).
  eapply users_appended; rewrite ?Hu, ?Hs; simpl; eauto.
Qed.

Lemma send_verification_users data now rnd smtp_ok st :
  users_step st (snd (send_verification data now rnd smtp_ok st)).
Proof.
  unfold send_verification.
  destruct (d_name data), (d_email data), (d_password data), (d_phone data);
    try (apply users_same; reflexivity).
  destruct (negb _); [apply users_same; reflexivity|].
  destruct (found _); [apply users_same; reflexivity|].
  destruct (String.eqb _ _); [apply users_same; reflexivity|].
  destruct smtp_ok; apply users_same; reflexivity.
Qed.

Lemma register_user_users data now create st :
  users_step st (snd (register_user data now create st)).
Proof.
  unfold register_user.
  destruct (d_name data), (d_email data), (d_password data), (d_phone data);
    try (apply users_same; reflexivity).
  destruct (negb _); [apply users_same; reflexivity|].
  destruct (d_verification_code data); [|apply users_same; reflexivity].
  destruct (negb (truthy _)); [apply users_same; reflexivity|].
  destruct (found _); [apply users_same; reflexivity|].
  destruct (verification_codes st !! _); [|apply users_same; reflexivity].
  destruct (Z.gtb _ _); [apply users_same; reflexivity|].
  destruct (negb (String.eqb _ _)); [apply users_same; reflexivity|].
  destruct (_ || _); [apply users_same; reflexivity|].
  destruct create; try (apply users_same; reflexivity).
  destruct (insert_user _ _ _ _ _) as [[new_id st']|] eqn:Hins;
    [|apply users_same; reflexivity].
  eapply users_step_insert; [exact Hins|reflexivity|reflexivity].
Qed.

Lemma ensure_local_user_record_users email password firebase_uid get_user st user st' :
  ensure_local_user_record email password firebase_uid get_user st = Some (user, st') ->
  users_step st st'.
Proof.
  unfold ensure_local_user_record.
  destruct (fetch_local_user st email).
  - intros [= _ <-]. apply users_same; reflexivity.
  - destruct (profile_or_defaults _ _ _) as [name phone].
    destruct (insert_user _ _ _ _ _) as [[new_id st1]|] eqn:Hins; [|discriminate].
    intros [= _ <-]. eapply users_step_insert; [exact Hins|reflexivity|reflexivity].
Qed.

Lemma login_user_users data http get_user st :
  users_step st (snd (login_user data http get_user st)).
Proof.
  unfold login_user.
  destruct (l_email data) as [email|]; [|apply users_same; reflexivity].
  destruct (l_password data) as [password|]; [|apply users_same; reflexivity].
  destruct (_ || _); [apply users_same; reflexivity|].
  destruct (truthy_opt FIREBASE_WEB_API_KEY).
  - destruct (sign_in_with_firebase http) as [uid|m s].
    + destruct (ensure_local_user_record _ _ _ _ _) as [[user st']|] eqn:Hens;
        [|apply users_same; reflexivity].
      exact (ensure_local_user_record_users _ _ _ _ _ _ _ Hens).
    + destruct (authenticate_locally _ _ _); [apply users_same; reflexivity|].
      destruct (_ && _); [apply users_same; reflexivity|].
      destruct (_ && _); apply users_same; reflexivity.
  - destruct (authenticate_locally _ _ _); apply users_same; reflexivity.
Qed.

Lemma serve_users c st : users_step st (snd (serve c st)).
Proof.
  destruct c; simpl;
    [apply send_verification_users|apply register_user_users|apply login_user_users].
Qed.

Lemma fetch_none_not_in st email :
  fetch_local_user st email = None -> ~ In email (List.map u_email (users st)).
Proof.
  unfold fetch_local_user. induction (users st) as [|u rows IH]; simpl;
    [intros _ []|].
  destruct (String.eqb (u_email u) email) eqn:Heq; [discriminate|].
  apply String.eqb_neq in Heq. intros Hnone [H|H]; [congruence|exact (IH Hnone H)].
Qed.

Lemma max_rowid_bound (rows : list user_row) u : In u rows -> u_id u <= max_rowid rows.
Proof.
  induction rows as [|v rows IH]; simpl; [intros []|].
  intros [->|H]; [lia|]. specialize (IH H). lia.
Qed.

Lemma fresh_id_not_in st :
  ~ In (Z.max (users_seq st) (max_rowid (users st)) + 1) (List.map u_id (users st)).
Proof.
  intros H. apply List.in_map_iff in H. destruct H as (u & Hid & Hin).
  pose proof (max_rowid_bound _ _ Hin). lia.
Qed.

Lemma NoDup_append_one {A} (l : list A) (x : A) :
  List.NoDup l -> ~ In x l -> List.NoDup (l ++ [x]).
Proof.
  intros Hl Hx. induction Hl as [|y l Hy Hl IH]; simpl.
  - constructor; [intros []|constructor].
  - constructor.
    + rewrite List.in_app_iff. simpl. intros [H|[H|[]]]; [exact (Hy H)|].
      subst. apply Hx. left. reflexivity.
    + apply IH. intros H. apply Hx. right. exact H.
Qed.

Lemma users_step_emails st st' :
  users_step st st' -> emails_unique st -> emails_unique st'.
Proof.
  unfold emails_unique. intros [Hu _|row Hu Hnone _ _] Hinv; rewrite Hu; [exact Hinv|].
  rewrite List.map_app. simpl. apply NoDup_append_one; [exact Hinv|].
  apply fetch_none_not_in. exact Hnone.
Qed.

Lemma users_step_ids st st' :
  users_step st st' -> ids_unique st -> ids_unique st'.
Proof.
  unfold ids_unique. intros [Hu _|row Hu _ Hid _] Hinv; rewrite Hu; [exact Hinv|].
  rewrite List.map_app. simpl. apply NoDup_append_one; [exact Hinv|].
  rewrite Hid. apply fresh_id_not_in.
Qed.

Lemma serve_all_cons c rest st :
  serve_all (c :: rest) st
  = (fst (serve c st) :: fst (serve_all rest (snd (serve c st))),
     snd (serve_all rest (snd (serve c st)))).
Proof.
  simpl. destruct (serve c st) as [r st1]. simpl.
  destruct (serve_all rest st1) as [rs st2]. reflexivity.
Qed.

(** An invariant every single call keeps is kept by every sequence. *)
Lemma serve_all_invariant (P : state -> Prop) :
  (forall c st, P st -> P (snd (serve c st))) ->
  forall calls st, P st -> P (snd (serve_all calls st)).
Proof.
  intros Hstep calls. induction calls as [|c rest IH]; intros st HP; [exact HP|].
  rewrite serve_all_cons. simpl. apply IH, Hstep, HP.
Qed.

Lemma digits_of_generated_code rnd : six_digits (generate_verification_code rnd).
Proof.
  assert (forall i, is_digit (digit rnd i) = true) as Hd.
  { intros i. unfold is_digit, digit.
    pose proof (Nat.mod_upper_bound (rnd i) 10 ltac:(lia)) as Hlt.
    rewrite nat_ascii_embedding by lia.
    apply andb_true_intro. split; apply Nat.leb_le; lia. }
  split; [reflexivity|].
  unfold generate_verification_code.
  rewrite list_ascii_of_string_of_list_ascii. apply forallb_forall.
  intros c Hc. apply List.in_map_iff in Hc. destruct Hc as (i & <- & _). apply Hd.
Qed.

(** X1. The verification code is always a string of exactly six decimal
    digits, whatever the random generator produces. *)
Theorem generated_code_is_six_digits rnd :
  six_digits (generate_verification_code rnd).
Proof. apply digits_of_generated_code. Qed.

(** X2. Email uniqueness is an invariant of the three user routes: from a
    users table in which no two rows share an email, every sequence of
    send-verification, register and login calls, whatever the outside
    world answers, leads to a users table with the same property. *)
Theorem emails_stay_unique calls st :
  emails_unique st -> emails_unique (snd (serve_all calls st)).
Proof.
  revert calls st. apply (serve_all_invariant emails_unique).
  intros c st. apply users_step_emails, serve_users.
Qed.

Lemma max_rowid_nonneg (rows : list user_row) : 0 <= max_rowid rows.
Proof. induction rows as [|u rows IH]; simpl; lia. Qed.

Lemma max_rowid_app (rows : list user_row) row :
  max_rowid (rows ++ [row]) = Z.max (max_rowid rows) (Z.max (u_id row) 0).
Proof. induction rows as [|u rows IH]; simpl; [lia|]. rewrite IH. lia. Qed.

(** What a call does to the largest rowid the table has ever held. *)
Lemma users_step_largest st st' :
  users_step st st' ->
  (users st' = users st /\ largest_rowid st' = largest_rowid st) \/
  (exists row, users st' = (users st ++ [row])%list /\
               u_id row = largest_rowid st + 1 /\
               largest_rowid st' = u_id row /\ users_seq st' = u_id row).
Proof.
  unfold largest_rowid. intros [Hu Hs|row Hu _ Hid Hs].
  - left. rewrite Hu, Hs. auto.
  - right. exists row. rewrite Hu, Hs, max_rowid_app.
    pose proof (max_rowid_nonneg (users st)). repeat split; auto. lia.
Qed.

(** X3. Row ids are never reused by the three user routes. After any
    sequence of calls the users table is the old table followed by new
    rows whose ids increase strictly in insertion order and all lie above
    the largest rowid the table had ever held before (its AUTOINCREMENT
    counter and the ids then in use); the counter never decreases and ends
    at or above every new id; and if the ids were pairwise distinct before
    they are pairwise distinct afterwards. *)
Theorem ids_are_never_reused calls st :
  let st' := snd (serve_all calls st) in
  exists rows,
    users st' = (users st ++ rows)%list /\
    StronglySorted Z.lt (List.map u_id rows) /\
    Forall (fun row => largest_rowid st < u_id row) rows /\
    Forall (fun row => u_id row <= users_seq st') rows /\
    users_seq st <= users_seq st' /\
    largest_rowid st <= largest_rowid st' /\
    (ids_unique st -> ids_unique st').
Proof.
  cbv zeta.
  assert (forall calls st,
             exists rows,
               users (snd (serve_all calls st)) = (users st ++ rows)%list /\
               StronglySorted Z.lt (List.map u_id rows) /\
               Forall (fun row => largest_rowid st < u_id row) rows /\
               Forall (fun row => u_id row <= users_seq (snd (serve_all calls st)))
                 rows /\
               users_seq st <= users_seq (snd (serve_all calls st)) /\
               largest_rowid st <= largest_rowid (snd (serve_all calls st))) as H.
  { clear calls st. induction calls as [|c rest IH]; intros st.
    - exists []. simpl. rewrite List.app_nil_r.
      repeat split; try constructor; lia.
    - rewrite serve_all_cons. simpl.
      destruct (IH (snd (serve c st)))
        as (rows & Hrows & Hsorted & Habove & Hbelow & Hseq & Hlargest).
      destruct (users_step_largest _ _ (serve_users c st))
        as [[Hu Hl]|(row & Hu & Hid & Hl & Hs)].
      + exists rows. rewrite Hrows, Hu. rewrite Hl in Habove, Hlargest.
        assert (users_seq (snd (serve c st)) = users_seq st) as Hsame.
        { destruct (serve_users c st) as [_ Hs|row Hu' _ _ _]; [exact Hs|].
          rewrite Hu in Hu'. apply (f_equal (@length _)) in Hu'.
          rewrite List.length_app in Hu'. simpl in Hu'. lia. }
        rewrite Hsame in Hseq. auto 10.
      + exists (row :: rows). rewrite Hrows, Hu, <- List.app_assoc.
        rewrite Hl in Habove, Hlargest. rewrite Hs in Hseq.
        split; [reflexivity|]. split.
        { simpl. constructor; [exact Hsorted|].
          apply List.Forall_map. exact Habove. }
        split.
        { constructor; [lia|].
          eapply List.Forall_impl; [|exact Habove]. simpl. intros; lia. }
        split; [constructor; [lia|exact Hbelow]|].
        split; [|lia].
        unfold largest_rowid in Hid. lia. }
  destruct (H calls st) as (rows & H1 & H2 & H3 & H4 & H5 & H6).
  exists rows. repeat (split; [assumption|]).
  apply (serve_all_invariant ids_unique).
  intros c st0. apply users_step_ids, serve_users.
Qed.

(** X4. The users table is append-only under the three user routes: after
    any sequence of calls the old rows are still there, unchanged and in
    the same order, followed by at most one new row per call. *)
Theorem users_table_is_append_only calls st :
  exists rows,
    users (snd (serve_all calls st)) = (users st ++ rows)%list /\
    (length rows <= length calls)%nat.
Proof.
  revert st. induction calls as [|c rest IH]; intros st.
  - exists []. simpl. rewrite List.app_nil_r. split; [reflexivity|lia].
  - rewrite serve_all_cons. simpl.
    destruct (IH (snd (serve c st))) as (rows & Hrows & Hlen).
    destruct (serve_users c st) as [Hu _|row Hu _ _ _]; rewrite Hrows, Hu.
    + exists rows. split; [reflexivity|simpl; lia].
    + exists (row :: rows). rewrite <- List.app_assoc. split; [reflexivity|simpl; lia].
Qed.

(** ** What each handler can do to the ticket table *)

Lemma all_truthy name email password phone :
  negb (truthy name && truthy email && truthy password && truthy phone) = false ->
  well_formed name email password phone.
Proof.
  unfold well_formed.
  destruct (truthy name), (truthy email), (truthy password), (truthy phone);
    simpl; intros H; try discriminate; auto.
Qed.

Lemma send_verification_codes data now rnd smtp_ok st :
  codes_step st (snd (send_verification data now rnd smtp_ok st)).
Proof.
  unfold send_verification.
  destruct (d_name data) as [name|], (d_email data) as [email|],
    (d_password data) as [password|], (d_phone data) as [phone|];
    try (apply codes_same; reflexivity).
  destruct (negb _) eqn:Hall; [apply codes_same; reflexivity|].
  destruct (all_truthy _ _ _ _ Hall) as (Hn & He & Hp & Hph).
  destruct (found _); [apply codes_same; reflexivity|].
  destruct (String.eqb _ _) eqn:Hadmin; [apply codes_same; reflexivity|].
  destruct smtp_ok; simpl.
  - eapply codes_stored; [exact He|exact Hadmin| |reflexivity].
    split; [apply digits_of_generated_code|simpl; auto].
  - apply (codes_removed _ _ (lower email)). simpl. apply delete_insert_eq.
Qed.

Lemma register_user_codes data now create st :
  codes_step st (snd (register_user data now create st)).
Proof.
  unfold register_user.
  destruct (d_name data) as [name|], (d_email data) as [email|],
    (d_password data) as [password|], (d_phone data) as [phone|];
    try (apply codes_same; reflexivity).
  destruct (negb _); [apply codes_same; reflexivity|].
  destruct (d_verification_code data); [|apply codes_same; reflexivity].
  destruct (negb (truthy _)); [apply codes_same; reflexivity|].
  destruct (found _); [apply codes_same; reflexivity|].
  destruct (verification_codes st !! _); [|apply codes_same; reflexivity].
  destruct (Z.gtb _ _); [apply (codes_removed _ _ (lower email)); reflexivity|].
  destruct (negb (String.eqb _ _)); [apply codes_same; reflexivity|].
  destruct (_ || _); [apply codes_same; reflexivity|].
  destruct create; try (apply (codes_removed _ _ (lower email)); reflexivity).
  destruct (insert_user _ _ _ _ _) as [[new_id st']|] eqn:Hins;
    [|apply (codes_removed _ _ (lower email)); reflexivity].
  destruct (insert_user_inv _ _ _ _ _ _ _ Hins) as (_ & _ & _ & _ & Hcodes).
  apply (codes_removed _ _ (lower email)). simpl. rewrite Hcodes. reflexivity.
Qed.

Lemma ensure_local_user_record_codes email password firebase_uid get_user st user st' :
  ensure_local_user_record email password firebase_uid get_user st = Some (user, st') ->
  verification_codes st' = verification_codes st.
Proof.
  unfold ensure_local_user_record.
  destruct (fetch_local_user st email); [intros [= _ <-]; reflexivity|].
  destruct (profile_or_defaults _ _ _) as [name phone].
  destruct (insert_user _ _ _ _ _) as [[new_id st1]|] eqn:Hins; [|discriminate].
  intros [= _ <-]. apply (insert_user_inv _ _ _ _ _ _ _ Hins).
Qed.

Lemma login_user_codes data http get_user st :
  verification_codes (snd (login_user data http get_user st)) = verification_codes st.
Proof.
  unfold login_user.
  destruct (l_email data) as [email|]; [|reflexivity].
  destruct (l_password data) as [password|]; [|reflexivity].
  destruct (_ || _); [reflexivity|].
  destruct (truthy_opt FIREBASE_WEB_API_KEY).
  - destruct (sign_in_with_firebase http) as [uid|m s].
    + destruct (ensure_local_user_record _ _ _ _ _) as [[user st']|] eqn:Hens;
        [|reflexivity].
      exact (ensure_local_user_record_codes _ _ _ _ _ _ _ Hens).
    + destruct (authenticate_locally _ _ _); [reflexivity|].
      destruct (_ && _); [reflexivity|]. destruct (_ && _); reflexivity.
  - destruct (authenticate_locally _ _ _); reflexivity.
Qed.

Lemma serve_codes c st : codes_step st (snd (serve c st)).
Proof.
  destruct c; simpl;
    [apply send_verification_codes|apply register_user_codes|
     apply codes_same, login_user_codes].
Qed.

Lemma codes_step_tickets_ok st st' :
  codes_step st st' -> tickets_ok st -> tickets_ok st'.
Proof.
  unfold tickets_ok.
  intros [Hc|key Hc|email tk He Hadmin Hok Hc] [Hall Hnoadmin]; rewrite Hc.
  - split; assumption.
  - split.
    + intros k t Hk. apply lookup_delete_Some in Hk. apply Hall, Hk.
    + apply lookup_delete_None. right. exact Hnoadmin.
  - apply String.eqb_neq in Hadmin. split.
    + intros k t Hk. apply lookup_insert_Some in Hk.
      destruct Hk as [[<- <-]|[_ Hk]]; [|exact (Hall _ _ Hk)].
      split; [exact Hok|]. exists email. split; [exact He|reflexivity].
    + rewrite lookup_insert_ne by exact Hadmin. exact Hnoadmin.
Qed.

Lemma serve_all_tickets_ok calls st :
  tickets_ok st -> tickets_ok (snd (serve_all calls st)).
Proof.
  revert calls st. apply (serve_all_invariant tickets_ok).
  intros c st. apply codes_step_tickets_ok, serve_codes.
Qed.

(** X5. Well-formedness of the ticket table is an invariant of the three
    user routes: if every ticket holds a six-digit code and non-empty
    pending name, password and phone, is stored under the lower-cased form
    of a non-empty email, and none is stored under the lower-cased reserved
    address, then the same holds after every sequence of calls. *)
Theorem tickets_stay_well_formed calls st :
  tickets_ok st -> tickets_ok (snd (serve_all calls st)).
Proof. apply serve_all_tickets_ok. Qed.

Lemma send_verification_other_keys data now rnd smtp_ok st key :
  (forall email, d_email data = Some email -> key <> lower email) ->
  verification_codes (snd (send_verification data now rnd smtp_ok st)) !! key
  = verification_codes st !! key.
Proof.
  intros Hkey. unfold send_verification.
  destruct (d_name data) as [name|], (d_email data) as [email|],
    (d_password data) as [password|], (d_phone data) as [phone|];
    try reflexivity.
  specialize (Hkey email eq_refl).
  destruct (negb _); [reflexivity|].
  destruct (found _); [reflexivity|].
  destruct (String.eqb _ _); [reflexivity|].
  destruct smtp_ok; simpl.
  - apply lookup_insert_ne. congruence.
  - rewrite lookup_delete_ne by congruence. apply lookup_insert_ne. congruence.
Qed.

Lemma register_user_other_keys data now create st key :
  (forall email, d_email data = Some email -> key <> lower email) ->
  verification_codes (snd (register_user data now create st)) !! key
  = verification_codes st !! key.
Proof.
  intros Hkey. unfold register_user.
  destruct (d_name data) as [name|], (d_email data) as [email|],
    (d_password data) as [password|], (d_phone data) as [phone|];
    try reflexivity.
  specialize (Hkey email eq_refl).
  assert (forall s, verification_codes s = verification_codes st ->
            verification_codes (pop_ticket (lower email) s) !! key
            = verification_codes st !! key) as Hpop.
  { intros s Hs. simpl. rewrite lookup_delete_ne by congruence. rewrite Hs.
    reflexivity. }
  destruct (negb _); [reflexivity|].
  destruct (d_verification_code data); [|reflexivity].
  destruct (negb (truthy _)); [reflexivity|].
  destruct (found _); [reflexivity|].
  destruct (verification_codes st !! lower email); [|reflexivity].
  destruct (Z.gtb _ _); [apply Hpop; reflexivity|].
  destruct (negb (String.eqb _ _)); [reflexivity|].
  destruct (_ || _); [reflexivity|].
  destruct create; try (apply Hpop; reflexivity).
  destruct (insert_user _ _ _ _ _) as [[new_id st']|] eqn:Hins;
    [|apply Hpop; reflexivity].
  apply Hpop. apply (insert_user_inv _ _ _ _ _ _ _ Hins).
Qed.

(** X6. A call touches the ticket of its own email only: for every key
    other than the lower-cased email of the request, send-verification and
    register leave the ticket stored under that key exactly as it was, and
    login leaves the whole ticket table as it was. *)
Theorem other_tickets_are_untouched c st key :
  match c with
  | SendVerification data _ _ _ | RegisterUser data _ _ =>
      forall email, d_email data = Some email -> key <> lower email
  | LoginUser _ _ _ => True
  end ->
  verification_codes (snd (serve c st)) !! key = verification_codes st !! key.
Proof.
  destruct c; simpl; intros Hkey.
  - apply send_verification_other_keys, Hkey.
  - apply register_user_other_keys, Hkey.
  - rewrite login_user_codes. reflexivity.
Qed.

(** ** Successful and failed registrations *)

(** A successful [register_user] went through every check. *)
Lemma register_user_success data now create st :
  succeeded (fst (register_user data now create st)) = true ->
  exists name email password phone code tk uid new_id st1,
    data = registration name email password phone (Some code) /\
    well_formed name email password phone /\ truthy code = true /\
    fetch_local_user st email = None /\
    verification_codes st !! lower email = Some tk /\
    now <= t_expires_at tk /\
    t_code tk = code /\ t_name tk = name /\ t_password tk = password /\
    t_phone tk = phone /\
    create = Created uid /\
    insert_user st name email (hash_password password) phone = Some (new_id, st1) /\
    register_user data now create st
    = ((User {| v_id := new_id; v_name := name; v_email := email;
                v_phone := phone |}, 200), pop_ticket (lower email) st1).
Proof.
  destruct data as [[name|] [email|] [password|] [phone|] code];
    unfold register_user; simpl; try discriminate.
  destruct (negb (truthy name && _ && _ && _)) eqn:Hall; [discriminate|].
  destruct code as [code|]; [|discriminate].
  destruct (truthy code) eqn:Hc; simpl; [|discriminate].
  destruct (fetch_local_user st email) eqn:Hnone; simpl; [discriminate|].
  destruct (verification_codes st !! lower email) as [tk|] eqn:Htk; [|discriminate].
  destruct (Z.gtb now (t_expires_at tk)) eqn:Hexp; [discriminate|].
  destruct (String.eqb (t_code tk) code) eqn:Hcode; simpl; [|discriminate].
  destruct (String.eqb (t_name tk) name) eqn:Hn; simpl; [|discriminate].
  destruct (String.eqb (t_password tk) password) eqn:Hp; simpl; [|discriminate].
  destruct (String.eqb (t_phone tk) phone) eqn:Hph; simpl; [|discriminate].
  destruct create as [uid| |]; [|discriminate|discriminate].
  destruct (insert_user st name email (hash_password password) phone)
    as [[new_id st1]|] eqn:Hins; [|discriminate].
  intros _. exists name, email, password, phone, code, tk, uid, new_id, st1.
  apply String.eqb_eq in Hcode, Hn, Hp, Hph.
  rewrite Z.gtb_ltb in Hexp. apply Z.ltb_ge in Hexp.
  repeat (split; [first [assumption|reflexivity|apply all_truthy; assumption]|]).
  reflexivity.
Qed.

(** X7. No account without verification: whenever register succeeds, the
    request carried all four fields and a code, the email had no user row,
    and the ticket table held, under the lower-cased email, an unexpired
    ticket whose code, name, password and phone are exactly the submitted
    ones; Firebase created the account, and the ticket is gone afterwards. *)
Theorem registration_requires_verification data now create st :
  succeeded (fst (register_user data now create st)) = true ->
  exists name email password phone code tk,
    data = registration name email password phone (Some code) /\
    fetch_local_user st email = None /\
    verification_codes st !! lower email = Some tk /\
    t_code tk = code /\ t_name tk = name /\ t_password tk = password /\
    t_phone tk = phone /\
    now <= t_expires_at tk /\
    (exists uid, create = Created uid) /\
    verification_codes (snd (register_user data now create st)) !! lower email = None.
Proof.
  intros Hok.
  destruct (register_user_success _ _ _ _ Hok)
    as (name & email & password & phone & code & tk & uid & new_id & st1 &
        Hdata & _ & _ & Hnone & Htk & Hnow & Hcode & Hn & Hp & Hph & Hcreate & _ & Hreg).
  exists name, email, password, phone, code, tk.
  repeat (split; [first [assumption|eauto]|]).
  rewrite Hreg. apply lookup_pop_ticket.
Qed.

(** X8. A register call writes to the users table exactly when it succeeds:
    a failed call leaves the table and its id counter as they were, and a
    successful one appends exactly one row, carrying the submitted name,
    email and phone and the hash of the submitted password. *)
Theorem register_writes_iff_success data now create st :
  (succeeded (fst (register_user data now create st)) = false ->
   users (snd (register_user data now create st)) = users st /\
   users_seq (snd (register_user data now create st)) = users_seq st) /\
  (succeeded (fst (register_user data now create st)) = true ->
   exists new_id name email password phone,
     data = registration name email password phone (d_verification_code data) /\
     users (snd (register_user data now create st))
     = (users st ++ [{| u_id := new_id; u_name := name; u_email := email;
                        u_password := hash_password password;
                        u_phone := Some phone |}])%list).
Proof.
  split.
  - unfold register_user.
    destruct (d_name data), (d_email data), (d_password data), (d_phone data);
      simpl; auto.
    destruct (negb _); simpl; [auto|].
    destruct (d_verification_code data); simpl; [|auto].
    destruct (negb (truthy _)); simpl; [auto|].
    destruct (found _); simpl; [auto|].
    destruct (verification_codes st !! _); simpl; [|auto].
    destruct (Z.gtb _ _); simpl; [auto|].
    destruct (negb (String.eqb _ _)); simpl; [auto|].
    destruct (_ || _); simpl; [auto|].
    destruct create; simpl; auto.
    destruct (insert_user _ _ _ _ _) as [[new_id st']|]; simpl;
      [discriminate|auto].
  - intros Hok.
    destruct (register_user_success _ _ _ _ Hok)
      as (name & email & password & phone & code & tk & uid & new_id & st1 &
          Hdata & _ & _ & _ & _ & _ & _ & _ & _ & _ & _ & Hins & Hreg).
    exists new_id, name, email, password, phone. rewrite Hreg. simpl.
    split; [rewrite Hdata; reflexivity|].
    apply (insert_user_inv _ _ _ _ _ _ _ Hins).
Qed.

(** X9. The reserved address cannot be registered through the code flow:
    in every state reached, by any sequence of calls, from a state with a
    well-formed ticket table, a register call whose email equals the
    reserved administrator address up to case fails, whatever code it
    presents. *)
Theorem reserved_address_never_redeems calls st data now create email :
  tickets_ok st ->
  d_email data = Some email ->
  lower email = lower ADMIN_EMAIL ->
  succeeded (fst (register_user data now create (snd (serve_all calls st)))) = false.
Proof.
  intros Hinv He Hadmin.
  destruct (serve_all_tickets_ok calls st Hinv) as [_ Hnone].
  destruct (succeeded _) eqn:Hok; [|reflexivity].
  destruct (register_user_success _ _ _ _ Hok)
    as (name & email' & password & phone & code & tk & _ & _ & _ &
        Hdata & _ & _ & _ & Htk & _).
  rewrite Hdata in He. injection He as ->.
  rewrite Hadmin, Hnone in Htk. discriminate.
Qed.

Lemma already_registered_send name email password phone code now rnd smtp_ok st user :
  well_formed name email password phone ->
  fetch_local_user st email = Some user ->
  send_verification (registration name email password phone code) now rnd smtp_ok st
  = (AlreadyRegistered, st).
Proof.
  intros Hwf Hfetch. unfold send_verification, registration; simpl.
  rewrite (well_formed_all _ _ _ _ Hwf), Hfetch. reflexivity.
Qed.

(** The row a successful [register_user] leaves behind. *)
Lemma registered_row data now create st :
  succeeded (fst (register_user data now create st)) = true ->
  exists name email password phone new_id,
    d_name data = Some name /\ d_email data = Some email /\
    d_password data = Some password /\ d_phone data = Some phone /\
    well_formed name email password phone /\
    fst (register_user data now create st)
    = (User {| v_id := new_id; v_name := name; v_email := email;
               v_phone := phone |}, 200) /\
    fetch_local_user (snd (register_user data now create st)) email
    = Some {| u_id := new_id; u_name := name; u_email := email;
              u_password := hash_password password; u_phone := Some phone |}.
Proof.
  intros Hok.
  destruct (register_user_success _ _ _ _ Hok)
    as (name & email & password & phone & code & tk & uid & new_id & st1 &
        Hdata & Hwf & _ & Hnone & _ & _ & _ & _ & _ & _ & _ & Hins & Hreg).
  exists name, email, password, phone, new_id. rewrite Hreg, Hdata. simpl.
  repeat (split; [first [reflexivity|assumption]|]).
  rewrite fetch_pop_ticket.
  destruct (insert_user_inv _ _ _ _ _ _ _ Hins) as (_ & _ & Husers & _).
  apply (fetch_after_append st st1 email _ Hnone Husers eq_refl).
Qed.

(** X10. A code is single-use and the address is taken for good: after a
    successful register, every further well-formed register call for the
    same email, whatever code it presents, and every further
    send-verification call for that email fail with "Email already
    registered" and change nothing. *)
Theorem registration_is_single_use data now create st
    name' password' phone' code' now' create' rnd' smtp_ok' email :
  succeeded (fst (register_user data now create st)) = true ->
  d_email data = Some email ->
  well_formed name' email password' phone' -> truthy code' = true ->
  let st2 := snd (register_user data now create st) in
  register_user (registration name' email password' phone' (Some code')) now'
    create' st2 = (AlreadyRegistered, st2) /\
  send_verification (registration name' email password' phone' None) now' rnd'
    smtp_ok' st2 = (AlreadyRegistered, st2).
Proof.
  intros Hok He Hwf Hc st2.
  destruct (registered_row _ _ _ _ Hok)
    as (name & email0 & password & phone & new_id & _ & He0 & _ & _ & _ & _ & Hfetch).
  rewrite He in He0. injection He0 as <-. fold st2 in Hfetch.
  split.
  - eapply already_registered_redeem; eassumption.
  - eapply already_registered_send; eassumption.
Qed.

Lemma filter_app_other (rows : list user_row) row email :
  List.find (fun u => String.eqb (u_email u) email) rows = None ->
  u_email row <> email ->
  List.filter (fun u => String.eqb (u_email u) email) (rows ++ [row])%list = [].
Proof.
  intros Hnone Hne. rewrite List.filter_app, (filter_none_nil _ _ Hnone). simpl.
  apply String.eqb_neq in Hne. rewrite Hne. reflexivity.
Qed.

(** X11. A ticket is bound to the lower-cased email, not to its spelling:
    a code requested for one spelling of an address redeems a register
    call for any other spelling with the same lower-cased form (no later
    than the expiry, Firebase creating the account, the users table able to
    take a row), and the account is then created for the spelling of the
    register call, while the spelling the code was sent to gets no user
    row. *)
Theorem code_redeems_other_spelling
    name email1 email2 password phone now now' rnd uid st :
  well_formed name email1 password phone ->
  truthy email2 = true ->
  fetch_local_user st email1 = None ->
  fetch_local_user st email2 = None ->
  lower email2 = lower email1 -> email2 <> email1 ->
  String.eqb (lower email1) (lower ADMIN_EMAIL) = false ->
  rowid_available st ->
  now' <= now + VERIFICATION_CODE_EXPIRY ->
  exists st1 new_id st2,
    send_verification (registration name email1 password phone None) now rnd true st
      = (CodeSent, st1) /\
    register_user
      (registration name email2 password phone
         (Some (generate_verification_code rnd))) now' (Created uid) st1
    = ((User {| v_id := new_id; v_name := name; v_email := email2;
                v_phone := phone |}, 200), st2) /\
    records_for st2 email2 = 1%nat /\
    records_for st2 email1 = 0%nat.
Proof.
  intros Hwf He2 Hnone1 Hnone2 Hlow Hne Hadmin Hroom Hnow.
  pose proof (send_verification_checked name email1 password phone None now rnd true
                st Hwf Hnone1 Hadmin) as Hsend.
  simpl in Hsend.
  set (tk := {| t_code := generate_verification_code rnd;
                t_expires_at := now + VERIFICATION_CODE_EXPIRY;
                t_name := name; t_password := password; t_phone := phone |}) in *.
  set (st1 := store_ticket (lower email1) tk st) in *.
  destruct Hwf as (Hn & _ & Hp & Hph).
  destruct (redeem_creates name email2 password phone (t_code tk) now' uid st1 tk)
    as (new_id & st2 & Hreg & Husers & _); try reflexivity; try assumption.
  { repeat split; assumption. }
  { rewrite Hlow. apply lookup_store_ticket. }
  exists st1, new_id, st2.
  split; [exact Hsend|]. split; [exact Hreg|].
  unfold records_for. rewrite Husers. split.
  - rewrite List.filter_app. change (users st1) with (users st).
    rewrite (filter_none_nil _ _ Hnone2). simpl.
    rewrite String.eqb_refl. reflexivity.
  - change (users st1) with (users st).
    rewrite filter_app_other; [reflexivity|exact Hnone1|exact Hne].
Qed.

(** ** Logging in *)

(** The local check decides whenever the remote provider is of no help and
    the local check succeeds. *)
Lemma login_local_ok email password http get_user st user :
  remote_unavailable http ->
  truthy email = true -> truthy password = true ->
  authenticate_locally email password st = LocalOk user ->
  login_user (credentials email password) http get_user st
  = ((build_user_response (Some user), 200), st).
Proof.
  intros Hremote He Hp Hlocal. unfold login_user, credentials; simpl.
  rewrite He, Hp; simpl.
  destruct Hremote as [Hkey|(m & s & Hsign)].
  - rewrite Hkey, Hlocal. reflexivity.
  - destruct (truthy_opt FIREBASE_WEB_API_KEY); rewrite ?Hsign, Hlocal; reflexivity.
Qed.

Lemma authenticate_stored_hash email password st user :
  fetch_local_user st email = Some user ->
  u_password user = hash_password password ->
  truthy (hash_password password) = true ->
  authenticate_locally email password st = LocalOk user.
Proof.
  intros Hfetch Hpw Hh. unfold authenticate_locally, verify_password.
  rewrite Hfetch, Hpw, Hh, String.eqb_refl. reflexivity.
Qed.

(** X12. Registering and then logging in returns the same account: after a
    successful register, a login with the registered email and password
    that the remote provider does not settle (no API key, or the sign-in
    fails or cannot be reached) succeeds against the stored hash, returns
    exactly the user object the register call returned and changes
    nothing. The digest of the password must be a non-empty string, as a
    SHA-256 hex digest is. *)
Theorem registered_user_can_log_in data now create st email password http get_user :
  succeeded (fst (register_user data now create st)) = true ->
  d_email data = Some email -> d_password data = Some password ->
  truthy (hash_password password) = true ->
  remote_unavailable http ->
  let st2 := snd (register_user data now create st) in
  login_user (credentials email password) http get_user st2
  = (fst (register_user data now create st), st2).
Proof.
  intros Hok He Hp Hh Hremote st2.
  destruct (registered_row _ _ _ _ Hok)
    as (name & email0 & password0 & phone & new_id & _ & He0 & Hp0 & _ &
        (_ & Hte & Htp & Htph) & Hresp & Hfetch).
  rewrite He in He0. injection He0 as <-.
  rewrite Hp in Hp0. injection Hp0 as <-.
  fold st2 in Hfetch.
  rewrite (login_local_ok email password http get_user st2 _ Hremote Hte Htp
             (authenticate_stored_hash _ _ _ _ Hfetch eq_refl Hh)).
  rewrite Hresp. simpl. rewrite Htph. reflexivity.
Qed.

(** X13. Without a remote provider, login is decided by the stored hash
    alone, and its refusal does not tell an unknown email from a wrong
    password: the login succeeds with the stored row exactly when the
    email has a row whose non-empty password column equals the hash of the
    submitted password, and in every other case the response is the same
    401 "Invalid email or password"; the state is never changed. *)
Theorem local_login_is_decided_by_the_hash email password http get_user st :
  truthy_opt FIREBASE_WEB_API_KEY = false ->
  truthy email = true -> truthy password = true ->
  (exists user,
      fetch_local_user st email = Some user /\
      truthy (u_password user) = true /\
      u_password user = hash_password password /\
      login_user (credentials email password) http get_user st
      = ((build_user_response (Some user), 200), st)) \/
  ((forall user, fetch_local_user st email = Some user ->
                 truthy (u_password user) = false \/
                 u_password user <> hash_password password) /\
   login_user (credentials email password) http get_user st
   = ((Failure "Invalid email or password", 401), st)).
Proof.
  intros Hkey He Hp. unfold login_user, credentials; simpl.
  rewrite He, Hp, Hkey; simpl. unfold authenticate_locally, verify_password.
  destruct (fetch_local_user st email) as [user|]; [|right; split; [discriminate|reflexivity]].
  destruct (truthy (u_password user)) eqn:Ht; simpl.
  - destruct (String.eqb (u_password user) (hash_password password)) eqn:Heq; simpl.
    + left. exists user. apply String.eqb_eq in Heq. auto.
    + right. apply String.eqb_neq in Heq. split; [|reflexivity].
      intros u [= <-]. right. exact Heq.
  - right. split; [|reflexivity]. intros u [= <-]. left. exact Ht.
Qed.

Lemma authenticate_locally_status email password st message status :
  authenticate_locally email password st = LocalFailed message status ->
  message = "Invalid email or password" /\ status = 401.
Proof.
  unfold authenticate_locally.
  destruct (fetch_local_user st email); [destruct (negb _)|]; intros [= <- <-]; auto.
Qed.

(** A login the remote provider does not settle is decided locally: 200
    with the stored row, or a 401 or 503 failure. *)
Lemma login_unsettled_shape email password http get_user st :
  remote_unavailable http ->
  truthy email = true -> truthy password = true ->
  let r := fst (login_user (credentials email password) http get_user st) in
  (snd r = 200 /\ exists view, fst r = User view) \/
  ((snd r = 401 \/ snd r = 503) /\ exists message, fst r = Failure message).
Proof.
  intros Hremote He Hp. unfold login_user, credentials; simpl.
  rewrite He, Hp; simpl.
  assert (truthy_opt FIREBASE_WEB_API_KEY = false \/
          exists m s, truthy_opt FIREBASE_WEB_API_KEY = true /\
                      sign_in_with_firebase http = SignInFailed m s) as Hcases.
  { destruct Hremote as [Hkey|(m & s & Hsign)]; [left; exact Hkey|].
    destruct (truthy_opt FIREBASE_WEB_API_KEY); [right; eauto|left; reflexivity]. }
  destruct Hcases as [Hkey|(m & s & Hkey & Hsign)]; rewrite Hkey, ?Hsign.
  - destruct (authenticate_locally email password st) as [user|lm ls] eqn:Hauth.
    + left. simpl. eauto.
    + destruct (authenticate_locally_status _ _ _ _ _ Hauth) as [-> ->].
      right. simpl. eauto.
  - destruct (sign_in_failure_shape _ _ _ Hsign) as [_ Hs].
    destruct (authenticate_locally email password st) as [user|lm ls] eqn:Hauth.
    + left. simpl. eauto.
    + destruct (authenticate_locally_status _ _ _ _ _ Hauth) as [-> ->].
      right. destruct (_ && _ && _); [simpl; split; [exact Hs|eauto]|].
      destruct (_ && _); simpl; eauto.
Qed.

(** X14. For a request whose email and password are strings or absent and
    a Firebase reply of the documented shape (a JSON object, or no reply at
    all), the login route answers 200 with a user object, a failure with
    status 400, 401 or 503, or the 500 of an exception no handler catches.
    The last happens exactly
    when Firebase accepts the sign-in of a request with non-empty email and
    password, the email has no user row and the users table cannot take a
    row (its largest rowid is 2^63 - 1), so that the INSERT of the local
    mirror raises. A 200 response never carries the "User not found"
    body. *)
Theorem login_statuses data http get_user st :
  let r := fst (login_user data http get_user st) in
  ((snd r = 200 /\ exists view, fst r = User view) \/
   ((snd r = 400 \/ snd r = 401 \/ snd r = 503) /\
    exists message, fst r = Failure message) \/
   r = UncaughtException) /\
  (r = UncaughtException <->
   truthy_opt FIREBASE_WEB_API_KEY = true /\
   (exists firebase_uid, sign_in_with_firebase http = SignedIn firebase_uid) /\
   (exists email password,
       l_email data = Some email /\ l_password data = Some password /\
       truthy email = true /\ truthy password = true /\
       fetch_local_user st email = None) /\
   ~ rowid_available st).
Proof.
  destruct data as [[email|] [password|]]; cbv zeta;
    try (unfold login_user; simpl;
         split; [right; left; simpl; eauto|];
         split; [discriminate|];
         intros (_ & _ & (e & p & He & Hp & _) & _); discriminate).
  assert (truthy email = false \/ truthy password = false ->
          login_user {| l_email := Some email; l_password := Some password |}
            http get_user st = (CredentialsRequired, st)) as Hrequired.
  { intros H. unfold login_user; simpl.
    destruct H as [-> | ->]; rewrite ?orb_true_r; reflexivity. }
  destruct (truthy email) eqn:He.
  2:{ rewrite Hrequired by auto. simpl.
      split; [right; left; eauto|]. split; [discriminate|].
      intros (_ & _ & (e & p & [= <-] & _ & Hte & _) & _). congruence. }
  destruct (truthy password) eqn:Hp.
  2:{ rewrite Hrequired by auto. simpl.
      split; [right; left; eauto|]. split; [discriminate|].
      intros (_ & _ & (e & p & _ & [= <-] & _ & Htp & _) & _). congruence. }
  clear Hrequired.
  assert (remote_unavailable http ->
          let r := fst (login_user (credentials email password) http get_user st) in
          ((snd r = 200 /\ exists view, fst r = User view) \/
           ((snd r = 400 \/ snd r = 401 \/ snd r = 503) /\
            exists message, fst r = Failure message) \/
           r = UncaughtException) /\
          r <> UncaughtException) as Hlocal.
  { intros Hremote.
    destruct (login_unsettled_shape email password http get_user st Hremote He Hp)
      as [[H200 Hview]|[Hs Hmsg]]; cbv zeta.
    - split; [left; split; assumption|].
      intros Hr. rewrite Hr in H200. discriminate.
    - split; [right; left; split; [destruct Hs; auto|exact Hmsg]|].
      intros Hr. rewrite Hr in Hs. destruct Hs; discriminate. }
  change {| l_email := Some email; l_password := Some password |}
    with (credentials email password).
  destruct (truthy_opt FIREBASE_WEB_API_KEY) eqn:Hkey.
  2:{ destruct (Hlocal (or_introl Hkey)) as [Hshape Hne].
      split; [exact Hshape|]. split; [intros H; contradiction|].
      intros (H & _). discriminate. }
  destruct (sign_in_with_firebase http) as [uid|m s] eqn:Hsign.
  2:{ destruct (Hlocal (or_intror (ex_intro _ m (ex_intro _ s Hsign))))
        as [Hshape Hne].
      split; [exact Hshape|]. split; [intros H; contradiction|].
      intros (_ & (uid & Hu) & _). discriminate. }
  clear Hlocal. unfold login_user, credentials; simpl.
  rewrite He, Hp, Hkey, Hsign; simpl.
  destruct (fetch_local_user st email) as [user|] eqn:Hfetch.
  - rewrite (ensure_existing _ _ _ _ _ _ Hfetch). simpl.
    split; [left; eauto|]. split; [discriminate|].
    intros (_ & _ & (e & p & [= <-] & _ & _ & _ & Hnone) & _). congruence.
  - destruct (rowid_available_dec st) as [Hroom|Hfull].
    + destruct (ensure_fresh email password uid get_user st Hfetch Hroom)
        as (new_id & st1 & Hens & _).
      simpl in Hens. rewrite Hens. simpl.
      split; [left; eauto|]. split; [discriminate|].
      intros (_ & _ & _ & Hfull). contradiction.
    + rewrite (ensure_full _ _ _ _ _ Hfetch Hfull). simpl.
      split; [right; right; reflexivity|]. split; [|reflexivity].
      intros _. split; [reflexivity|]. split; [eauto|].
      split; [|exact Hfull]. exists email, password. auto.
Qed.

(** X15. When the remote provider rejects the sign-in (any HTTP status
    other than 200) and the local check fails too, the response is a 401
    carrying the provider's user-safe message: "account disabled" for
    USER_DISABLED, "Invalid email or password" for an unknown email or a
    wrong password, and "Unable to sign in with Firebase" for every other
    or missing error code, which is never passed on as it is. *)
Theorem remote_rejection_message_is_kept
    email password status_code localId error_code get_user st message status :
  truthy_opt FIREBASE_WEB_API_KEY = true ->
  truthy email = true -> truthy password = true ->
  status_code <> 200 ->
  authenticate_locally email password st = LocalFailed message status ->
  login_user (credentials email password)
    (HttpResponse status_code localId error_code) get_user st
  = ((Failure (friendly_message error_code), 401), st) /\
  (friendly_message error_code = "Invalid email or password" \/
   friendly_message error_code
   = "Your account has been disabled. Please contact support." \/
   friendly_message error_code = "Unable to sign in with Firebase").
Proof.
  intros Hkey He Hp Hcode Hlocal. split.
  - destruct (authenticate_locally_status _ _ _ _ _ Hlocal) as [-> ->].
    unfold login_user, credentials; simpl. rewrite He, Hp, Hkey; simpl.
    apply Z.eqb_neq in Hcode. rewrite Hcode, Hlocal.
    assert (truthy (friendly_message error_code) = true) as ->.
    { apply (sign_in_failure_shape (HttpResponse status_code localId error_code) _ 401).
      simpl. rewrite Hcode. reflexivity. }
    reflexivity.
  - unfold friendly_message. destruct error_code as [c|]; [|auto].
    repeat (match goal with |- context [String.eqb c ?s] => destruct (String.eqb c s) end;
            auto).
Qed.

(** X16. The local mirror makes the account usable when the provider is
    down: after a first login that Firebase accepts for an email without a
    user row, in a users table that can take a row, a later login with the
    same email and password during which the sign-in fails (outage or
    rejection) still succeeds, with the very same response, and changes
    nothing. *)
Theorem mirrored_user_can_log_in_offline
    email password firebase_uid http get_user http2 get_user2 message status st :
  truthy_opt FIREBASE_WEB_API_KEY = true ->
  truthy email = true -> truthy password = true ->
  truthy (hash_password password) = true ->
  sign_in_with_firebase http = SignedIn firebase_uid ->
  fetch_local_user st email = None ->
  rowid_available st ->
  sign_in_with_firebase http2 = SignInFailed message status ->
  let first := login_user (credentials email password) http get_user st in
  succeeded (fst first) = true /\
  login_user (credentials email password) http2 get_user2 (snd first)
  = (fst first, snd first).
Proof.
  intros Hkey He Hp Hh Hsign Hnone Hroom Hsign2 first.
  destruct (ensure_fresh email password firebase_uid get_user st Hnone Hroom)
    as (new_id & st1 & Hens & _ & _ & Hfetch & _).
  simpl in Hens, Hfetch.
  assert (first = ((build_user_response (Some
            {| u_id := new_id;
               u_name := fst (profile_or_defaults email firebase_uid get_user);
               u_email := email; u_password := hash_password password;
               u_phone := Some (snd (profile_or_defaults email firebase_uid get_user))
            |}), 200), st1)) as ->.
  { unfold first, login_user, credentials; simpl.
    rewrite He, Hp, Hkey, Hsign; simpl. rewrite Hens. reflexivity. }
  split; [reflexivity|]. cbn [fst snd].
  apply login_local_ok; try assumption.
  - right. eauto.
  - apply authenticate_stored_hash; [exact Hfetch|reflexivity|exact Hh].
Qed.

(** ** Requests that do not pass the presence checks *)

Lemma send_verification_incomplete data now rnd smtp_ok st :
  fields_present data = false ->
  send_verification data now rnd smtp_ok st = (AllFieldsRequired, st).
Proof.
  unfold fields_present, send_verification.
  destruct (d_name data), (d_email data), (d_password data), (d_phone data);
    simpl; try reflexivity.
  intros ->. reflexivity.
Qed.

Lemma register_user_incomplete data now create st :
  fields_present data = false ->
  register_user data now create st = (AllFieldsRequired, st).
Proof.
  unfold fields_present, register_user.
  destruct (d_name data), (d_email data), (d_password data), (d_phone data);
    simpl; try reflexivity.
  intros ->. reflexivity.
Qed.

Lemma register_user_without_code data now create st :
  fields_present data = true ->
  truthy_opt (d_verification_code data) = false ->
  register_user data now create st = (CodeRequired, st).
Proof.
  unfold fields_present, register_user.
  destruct (d_name data), (d_email data), (d_password data), (d_phone data);
    simpl;
    try (repeat match goal with |- context [truthy ?x] => destruct (truthy x) end;
         simpl; discriminate).
  intros ->. simpl.
  destruct (d_verification_code data); simpl; [intros ->|]; reflexivity.
Qed.

Lemma login_user_incomplete data http get_user st :
  truthy_opt (l_email data) && truthy_opt (l_password data) = false ->
  login_user data http get_user st = (CredentialsRequired, st).
Proof.
  unfold login_user.
  destruct (l_email data) as [e|], (l_password data) as [p|]; simpl; try reflexivity.
  destruct (truthy e), (truthy p); simpl; try discriminate; reflexivity.
Qed.

(** X17. Missing or empty fields are refused before anything else happens:
    if any of name, email, password and phone is absent or the empty
    string, send-verification and register answer 400 "All fields are
    required"; a register call with the four fields but no code, or an
    empty one, answers 400 "Verification code is required"; a login without
    a non-empty email and password answers 400 "Email and password are
    required". In each case the state is left as it was, also when the
    email is already registered or reserved. *)
Theorem incomplete_requests_are_refused data ldata now rnd smtp_ok create http get_user st :
  (fields_present data = false ->
   send_verification data now rnd smtp_ok st = (AllFieldsRequired, st) /\
   register_user data now create st = (AllFieldsRequired, st)) /\
  (fields_present data = true -> truthy_opt (d_verification_code data) = false ->
   register_user data now create st = (CodeRequired, st)) /\
  (truthy_opt (l_email ldata) && truthy_opt (l_password ldata) = false ->
   login_user ldata http get_user st = (CredentialsRequired, st)).
Proof.
  split; [|split].
  - intros H. split;
      [apply send_verification_incomplete|apply register_user_incomplete]; exact H.
  - apply register_user_without_code.
  - apply login_user_incomplete.
Qed.

(** ** The default name of a mirrored account *)

Lemma split_at_0_no_at s : no_at s = true -> split_at_0 s = s.
Proof.
  unfold no_at. induction s as [|c s IH]; simpl; [reflexivity|].
  destruct (Ascii.eqb c "@"); simpl; [discriminate|].
  intros H. rewrite (IH H). reflexivity.
Qed.

Lemma split_at_0_prefix local rest :
  no_at local = true -> split_at_0 (local +:+ String "@" rest) = local.
Proof.
  unfold no_at. induction local as [|c s IH]; simpl; [reflexivity|].
  destruct (Ascii.eqb c "@"); simpl; [discriminate|].
  intros H. rewrite (IH H). reflexivity.
Qed.

(** X18. The default name [email.split('@')[0]] is the text before the
    first '@': for an email [local@rest] whose [local] part has no '@' it is
    [local], whatever [rest] is (further '@' included), for an email without
    any '@' it is the whole email, and it never contains an '@'. *)
Theorem default_name_is_the_local_part local rest :
  no_at local = true ->
  split_at_0 (local +:+ String "@" rest) = local /\
  split_at_0 local = local /\
  forall email, no_at (split_at_0 email) = true.
Proof.
  intros H. split; [apply split_at_0_prefix, H|]. split; [apply split_at_0_no_at, H|].
  intros email. unfold no_at. induction email as [|c s IH]; simpl; [reflexivity|].
  destruct (Ascii.eqb c "@") eqn:Hc; simpl; [reflexivity|].
  rewrite Hc. exact IH.
Qed.

(** ** The matcher and the email pattern *)

Lemma nullable_spec r : nullable r = true <-> in_lang r [].
Proof.
  split.
  - induction r as [| |p|r1 IH1 r2 IH2|r1 IH1 r2 IH2|r IH]; simpl; intros H;
      try discriminate.
    + constructor.
    + apply andb_prop in H. destruct H as [H1 H2].
      apply (in_cat r1 r2 [] []); auto.
    + apply orb_prop in H. destruct H as [H|H];
        [apply in_alt_l|apply in_alt_r]; auto.
    + constructor.
  - intros H. remember [] as s eqn:Hs.
    induction H as [|p c Hc|r1 r2 s1 s2 H1 IH1 H2 IH2|r1 r2 s H IH|r1 r2 s H IH|
                    r|r s1 s2 H1 IH1 H2 IH2]; simpl; try reflexivity.
    + discriminate.
    + apply List.app_eq_nil in Hs. destruct Hs as [-> ->].
      rewrite IH1, IH2; reflexivity.
    + rewrite IH; [reflexivity|exact Hs].
    + rewrite IH; [apply orb_true_r|exact Hs].
Qed.

Lemma cat_spec r1 r2 s :
  in_lang (Cat r1 r2) s <->
  exists s1 s2, s = (s1 ++ s2)%list /\ in_lang r1 s1 /\ in_lang r2 s2.
Proof.
  split.
  - intros H. inversion H; subst. eauto.
  - intros (s1 & s2 & -> & H1 & H2). constructor; assumption.
Qed.

(** A non-empty string of [r*] starts with a non-empty string of [r]. *)
Lemma star_cons_inv r c s :
  in_lang (Star r) (c :: s) ->
  exists s1 s2, s = (s1 ++ s2)%list /\ in_lang r (c :: s1) /\ in_lang (Star r) s2.
Proof.
  intros H. remember (Star r) as r' eqn:Hr. remember (c :: s) as w eqn:Hw.
  revert c s Hw.
  induction H as [|p c' Hc|r1 r2 s1 s2 H1 IH1 H2 IH2|r1 r2 s' H IH|r1 r2 s' H IH|
                  r0|r0 s1 s2 H1 IH1 H2 IH2]; intros c s Hw; try discriminate.
  injection Hr as ->.
  destruct s1 as [|c1 s1]; simpl in Hw.
  - apply IH2; [reflexivity|exact Hw].
  - injection Hw as Hc Hs. subst c s. exists s1, s2. auto.
Qed.

Lemma deriv_spec c r : forall s, in_lang (deriv c r) s <-> in_lang r (c :: s).
Proof.
  induction r as [| |p|r1 IH1 r2 IH2|r1 IH1 r2 IH2|r IH]; simpl; intros s.
  - split; intros H; inversion H.
  - split; intros H; inversion H.
  - destruct (p c) eqn:Hp; split; intros H; inversion H; subst.
    + constructor. exact Hp.
    + constructor.
    + congruence.
  - assert (in_lang (Cat (deriv c r1) r2) s ->
            in_lang (Cat r1 r2) (c :: s)) as Hleft.
    { intros H. apply cat_spec in H. destruct H as (s1 & s2 & -> & H1 & H2).
      apply IH1 in H1. apply (in_cat r1 r2 (c :: s1) s2); assumption. }
    assert (in_lang (Cat r1 r2) (c :: s) ->
            in_lang (Cat (deriv c r1) r2) s \/
            (in_lang r1 [] /\ in_lang (deriv c r2) s)) as Hright.
    { intros H. apply cat_spec in H. destruct H as (s1 & s2 & Hs & H1 & H2).
      destruct s1 as [|c1 s1]; simpl in Hs.
      - subst s2. right. split; [exact H1|apply IH2; exact H2].
      - injection Hs as Hc Hs. subst c1 s. left.
        constructor; [apply IH1; exact H1|exact H2]. }
    destruct (nullable r1) eqn:Hn.
    + split.
      * intros H. inversion H; subst; [apply Hleft; assumption|].
        apply (in_cat r1 r2 [] (c :: s)); [apply nullable_spec; exact Hn|].
        apply IH2. assumption.
      * intros H. destruct (Hright H) as [H'|[_ H']];
          [apply in_alt_l|apply in_alt_r]; exact H'.
    + split; [exact Hleft|].
      intros H. destruct (Hright H) as [H'|[H' _]]; [exact H'|].
      apply nullable_spec in H'. congruence.
  - split; intros H; inversion H; subst;
      first [apply in_alt_l; apply IH1; assumption
            |apply in_alt_r; apply IH2; assumption].
  - split.
    + intros H. apply cat_spec in H. destruct H as (s1 & s2 & -> & H1 & H2).
      apply IH in H1. apply (in_star_cons r (c :: s1) s2); assumption.
    + intros H. destruct (star_cons_inv _ _ _ H) as (s1 & s2 & -> & H1 & H2).
      constructor; [apply IH; exact H1|exact H2].
Qed.

(** The matcher decides the language. *)
Lemma matches_spec s : forall r, matches r s = true <-> in_lang r s.
Proof.
  induction s as [|c s IH]; intros r; simpl.
  - apply nullable_spec.
  - rewrite IH. apply deriv_spec.
Qed.

Lemma star_class_spec p s : in_lang (Star (Class p)) s <-> forallb p s = true.
Proof.
  split.
  - intros H. remember (Star (Class p)) as r eqn:Hr.
    induction H as [|p' c Hc|r1 r2 s1 s2 H1 IH1 H2 IH2|r1 r2 s H IH|r1 r2 s H IH|
                    r0|r0 s1 s2 H1 IH1 H2 IH2]; try discriminate; [reflexivity|].
    injection Hr as ->. inversion H1 as [|? c Hc| | | | |]; subst. simpl.
    rewrite IH2 by reflexivity. rewrite Hc. reflexivity.
  - induction s as [|c s IH]; simpl; intros H; [constructor|].
    apply andb_prop in H. destruct H as [Hc Hs].
    apply (in_star_cons (Class p) [c] s); [constructor; exact Hc|apply IH; exact Hs].
Qed.

Lemma plus_class_spec p s :
  in_lang (Plus (Class p)) s <-> s <> [] /\ forallb p s = true.
Proof.
  unfold Plus. split.
  - intros H. apply cat_spec in H. destruct H as (s1 & s2 & -> & H1 & H2).
    inversion H1 as [|? c Hc| | | | |]; subst. apply star_class_spec in H2. simpl.
    split; [discriminate|]. rewrite H2, Hc. reflexivity.
  - intros [Hne H]. destruct s as [|c s]; [congruence|]. simpl in H.
    apply andb_prop in H. destruct H as [Hc Hs].
    apply (in_cat (Class p) (Star (Class p)) [c] s);
      [constructor; exact Hc|apply star_class_spec; exact Hs].
Qed.

Lemma at_least2_class_spec p s :
  in_lang (AtLeast2 (Class p)) s <-> (2 <= length s)%nat /\ forallb p s = true.
Proof.
  unfold AtLeast2. split.
  - intros H. apply cat_spec in H. destruct H as (s1 & s2 & -> & H1 & H2).
    apply cat_spec in H2. destruct H2 as (s3 & s4 & -> & H3 & H4).
    inversion H1 as [|? c1 Hc1| | | | |]; subst.
    inversion H3 as [|? c2 Hc2| | | | |]; subst.
    apply star_class_spec in H4. simpl.
    split; [lia|]. rewrite H4, Hc1, Hc2. reflexivity.
  - intros [Hlen H]. destruct s as [|c1 [|c2 s]]; simpl in Hlen; try lia.
    simpl in H. apply andb_prop in H. destruct H as [Hc1 H].
    apply andb_prop in H. destruct H as [Hc2 Hs].
    apply (in_cat (Class p) _ [c1] (c2 :: s)); [constructor; exact Hc1|].
    apply (in_cat (Class p) _ [c2] s);
      [constructor; exact Hc2|apply star_class_spec; exact Hs].
Qed.

Lemma char_spec c s : in_lang (Class (Ascii.eqb c)) s <-> s = [c].
Proof.
  split.
  - intros H. inversion H as [|? c' Hc| | | | |]; subst.
    apply Ascii.eqb_eq in Hc. subst. reflexivity.
  - intros ->. constructor. apply Ascii.eqb_refl.
Qed.

Lemma email_pattern_shape s : re_match email_pattern s = true <-> email_shape s.
Proof.
  unfold re_match, email_shape. rewrite matches_spec.
  generalize (list_ascii_of_string s) as w. intros w.
  unfold email_pattern. split.
  - intros H.
    apply cat_spec in H. destruct H as (w1 & ending & -> & H & Hend).
    apply cat_spec in H. destruct H as (local & w2 & -> & Hlocal & H).
    apply cat_spec in H. destruct H as (at_ & w3 & -> & Hat & H).
    apply cat_spec in H. destruct H as (domain & w4 & -> & Hdomain & H).
    apply cat_spec in H. destruct H as (dot & tld & -> & Hdot & Htld).
    apply char_spec in Hat, Hdot. subst at_ dot.
    apply plus_class_spec in Hlocal, Hdomain. apply at_least2_class_spec in Htld.
    exists local, domain, tld, ending.
    split; [simpl; rewrite <- !List.app_assoc; simpl; rewrite <- !List.app_assoc;
            reflexivity|].
    destruct Hlocal, Hdomain, Htld. repeat (split; [assumption|]).
    inversion Hend as [| | |? ? ? He|? ? ? He| |]; subst.
    + inversion He. left. reflexivity.
    + apply char_spec in He. right. exact He.
  - intros (local & domain & tld & ending & -> & Hl1 & Hl2 & Hd1 & Hd2 & Ht1 & Ht2 & He).
    replace (local ++ "@"%char :: domain ++ "."%char :: tld ++ ending)%list
      with ((local ++ ["@"%char] ++ domain ++ ["."%char] ++ tld) ++ ending)%list
      by (rewrite <- !List.app_assoc; reflexivity).
    constructor.
    + constructor; [apply plus_class_spec; auto|].
      constructor; [apply char_spec; reflexivity|].
      constructor; [apply plus_class_spec; auto|].
      constructor; [apply char_spec; reflexivity|].
      apply at_least2_class_spec; auto.
    + destruct He as [->| ->]; [apply in_alt_l; constructor|].
      apply in_alt_r. apply char_spec. reflexivity.
Qed.

(** X22. The email pattern of the feedback route accepts exactly the strings
    of the shape [local@domain.tld], where [local] is a non-empty run of
    letters, digits and [._%+-], [domain] a non-empty run of letters,
    digits, [.] and [-], and [tld] at least two letters, optionally followed
    by one final newline (which [$] lets through). *)
Theorem email_pattern_accepts_exactly_the_shape s :
  re_match email_pattern s = true <-> email_shape s.
Proof. apply email_pattern_shape. Qed.

Lemma get_stripped_none field : get_stripped field = None <-> field = NotText.
Proof. destruct field; simpl; split; intros H; try discriminate; reflexivity. Qed.

(** The checks of [submit_feedback] once its four fields are read. *)
Lemma submit_feedback_read d name email phone query smtp_ok :
  get_stripped (f_name d) = Some name ->
  get_stripped (f_email d) = Some email ->
  get_stripped (f_phone d) = Some phone ->
  get_stripped (f_query d) = Some query ->
  submit_feedback (Some d) smtp_ok
  = if negb (truthy name && truthy email && truthy phone && truthy query)
    then (Failure "All fields are required. Please fill in all the information.", 400)
    else if negb (re_match email_pattern email)
    then (Failure "Please enter a valid email address.", 400)
    else if smtp_ok
    then (Notice "Thank you for your feedback! We have received your message and will get back to you soon.", 200)
    else (Failure "Failed to send feedback. Please try again later or contact us directly.", 500).
Proof. intros Hn He Hp Hq. unfold submit_feedback. rewrite Hn, He, Hp, Hq. reflexivity. Qed.

Lemma submit_feedback_unreadable data smtp_ok :
  feedback_unreadable data -> submit_feedback data smtp_ok = FeedbackError.
Proof.
  destruct data as [d|]; [|reflexivity]. unfold submit_feedback. simpl.
  intros [H|[H|[H|H]]]; rewrite H; simpl;
    repeat match goal with
           | |- context [get_stripped ?f] => destruct (get_stripped f)
           end; reflexivity.
Qed.

(** A readable feedback has four stripped fields. *)
Lemma readable_fields d :
  ~ feedback_unreadable (Some d) ->
  exists name email phone query,
    get_stripped (f_name d) = Some name /\ get_stripped (f_email d) = Some email /\
    get_stripped (f_phone d) = Some phone /\ get_stripped (f_query d) = Some query.
Proof.
  simpl. intros H.
  destruct (get_stripped (f_name d)) as [name|] eqn:Hn;
    [|exfalso; apply H; left; apply get_stripped_none; exact Hn].
  destruct (get_stripped (f_email d)) as [email|] eqn:He;
    [|exfalso; apply H; right; left; apply get_stripped_none; exact He].
  destruct (get_stripped (f_phone d)) as [phone|] eqn:Hp;
    [|exfalso; apply H; right; right; left; apply get_stripped_none; exact Hp].
  destruct (get_stripped (f_query d)) as [query|] eqn:Hq;
    [|exfalso; apply H; right; right; right; apply get_stripped_none; exact Hq].
  eauto 10.
Qed.

(** X23. The feedback route has three kinds of answers. When the body is
    not a JSON object or one of name, email, phone and query holds a value
    that is not a string (null included), reading the fields raises and the
    answer is the 500 of the handler's except branch. Otherwise, when one of
    the four strings (a missing key counting as empty) is empty after
    stripping or the stripped email does not have the shape
    [local@domain.tld], the answer is 400, whether or not the mailer works.
    Otherwise the feedback reaches the mailer: 200 when the mail is sent
    and 500 "Failed to send feedback" when it is not. In particular, with a
    working mailer the answer is 200 exactly for a valid feedback. *)
Theorem feedback_is_accepted_iff_valid data smtp_ok :
  (feedback_unreadable data -> submit_feedback data smtp_ok = FeedbackError) /\
  (~ feedback_unreadable data -> ~ feedback_valid data ->
   snd (submit_feedback data smtp_ok) = 400 /\
   succeeded (submit_feedback data smtp_ok) = false) /\
  (feedback_valid data ->
   submit_feedback data true
   = (Notice "Thank you for your feedback! We have received your message and will get back to you soon.", 200) /\
   submit_feedback data false
   = (Failure "Failed to send feedback. Please try again later or contact us directly.", 500)) /\
  (snd (submit_feedback data true) = 200 <-> feedback_valid data).
Proof.
  assert (feedback_valid data ->
          forall ok, submit_feedback data ok
          = if ok
            then (Notice "Thank you for your feedback! We have received your message and will get back to you soon.", 200)
            else (Failure "Failed to send feedback. Please try again later or contact us directly.", 500))
    as Hvalid.
  { intros (d & name & email & phone & query & -> & Hn & He & Hp & Hq &
            Htn & Hte & Htp & Htq & Hshape) ok.
    rewrite (submit_feedback_read d name email phone query ok Hn He Hp Hq).
    rewrite Htn, Hte, Htp, Htq. simpl.
    apply email_pattern_shape in Hshape. rewrite Hshape. reflexivity. }
  assert (~ feedback_unreadable data -> ~ feedback_valid data ->
          forall ok, snd (submit_feedback data ok) = 400 /\
                     succeeded (submit_feedback data ok) = false) as Hinvalid.
  { intros Hread Hnot ok. destruct data as [d|]; [|exfalso; apply Hread; exact I].
    destruct (readable_fields d Hread)
      as (name & email & phone & query & Hn & He & Hp & Hq).
    rewrite (submit_feedback_read d name email phone query ok Hn He Hp Hq).
    destruct (truthy name) eqn:Htn; [|split; reflexivity].
    destruct (truthy email) eqn:Hte; [|split; reflexivity].
    destruct (truthy phone) eqn:Htp; [|split; reflexivity].
    destruct (truthy query) eqn:Htq; [|split; reflexivity].
    simpl. destruct (re_match email_pattern email) eqn:Hm; [|split; reflexivity].
    exfalso. apply Hnot. exists d, name, email, phone, query.
    apply email_pattern_shape in Hm. auto 12. }
  split; [apply submit_feedback_unreadable|].
  split; [intros Hread Hnot; apply Hinvalid; assumption|].
  split; [intros Hv; split; [apply (Hvalid Hv true)|apply (Hvalid Hv false)]|].
  split.
  - intros H200.
    destruct data as [d|]; [|discriminate H200].
    assert (~ feedback_unreadable (Some d)) as Hread.
    { intros Hun. rewrite (submit_feedback_unreadable _ true Hun) in H200.
      discriminate H200. }
    destruct (readable_fields d Hread)
      as (name & email & phone & query & Hn & He & Hp & Hq).
    rewrite (submit_feedback_read d name email phone query true Hn He Hp Hq) in H200.
    destruct (truthy name) eqn:Htn; [|discriminate H200].
    destruct (truthy email) eqn:Hte; [|discriminate H200].
    destruct (truthy phone) eqn:Htp; [|discriminate H200].
    destruct (truthy query) eqn:Htq; [|discriminate H200].
    simpl in H200.
    destruct (re_match email_pattern email) eqn:Hm; [|discriminate H200].
    exists d, name, email, phone, query.
    apply email_pattern_shape in Hm. auto 12.
  - intros Hv. rewrite (Hvalid Hv true). reflexivity.
Qed.

End Handlers.


(** ** The claims on concrete requests

    The handlers are run with [ascii_lower] for [str.lower], with
    [tagged_digest] for SHA-256 and with [ADMIN_EMAIL] unset, so that the
    reserved address is ["admin@shophub.com"]. *)

Local Abbreviation send := (send_verification ascii_lower None).
Local Abbreviation redeem := (register_user ascii_lower tagged_digest).
Local Abbreviation login := (login_user tagged_digest (Some "web-api-key")).

(** C1 at a concrete request: Ann registers with ["Ann@X.com"]. *)
Lemma request_then_redeem_registers_witness :
  fetch_local_user empty_state "Ann@X.com" = None /\
  exists st1 st2,
    send (registration "Ann" "Ann@X.com" "secret" "555" None) 1000 count_up true
      empty_state = (CodeSent, st1) /\
    redeem (registration "Ann" "Ann@X.com" "secret" "555" (Some "012345")) 1001
      (Created "uid-1") st1
    = ((User {| v_id := 1; v_name := "Ann"; v_email := "Ann@X.com";
                v_phone := "555" |}, 200), st2) /\
    records_for st2 "Ann@X.com" = 1%nat.
Proof.
  split; [reflexivity|].
  destruct (request_then_redeem_registers ascii_lower tagged_digest None
              "Ann" "Ann@X.com" "secret" "555" 1000 1001 count_up "uid-1" empty_state)
    as (st1 & tk & new_id & st2 & row & Hsend & Htk & Hreg & _ & Hone & _).
  - repeat split.
  - reflexivity.
  - reflexivity.
  - reflexivity.
  - unfold VERIFICATION_CODE_EXPIRY; lia.
  - exists st1, st2. split; [exact Hsend|].
    injection Hsend as <-. vm_compute in Htk. injection Htk as <-.
    split; [|exact Hone].
    pose proof Hreg as Hid. vm_compute in Hid. injection Hid as <- _.
    exact Hreg.
Defined.

(** C1 as stated fails for the reserved address: no user row carries
    ["admin@shophub.com"], yet RequestVerification answers ReservedEmail
    and stores nothing, so that no Redeem, whatever code it presents, can
    succeed. *)
Lemma reserved_email_never_registers :
  fetch_local_user empty_state "admin@shophub.com" = None /\
  send (registration "Ann" "admin@shophub.com" "secret" "555" None) 1000 count_up
    true empty_state = (ReservedEmail, empty_state) /\
  succeeded ReservedEmail = false /\
  forall code now' create,
    succeeded
      (fst (redeem (registration "Ann" "admin@shophub.com" "secret" "555" code)
              now' create empty_state)) = false /\
    records_for
      (snd (redeem (registration "Ann" "admin@shophub.com" "secret" "555" code)
              now' create empty_state)) "admin@shophub.com" = 0%nat.
Proof.
  split; [reflexivity|]. split; [reflexivity|]. split; [reflexivity|].
  intros [code|] now' create; [|split; reflexivity].
  unfold register_user, registration; simpl.
  destruct (negb (truthy code)); split; reflexivity.
Qed.

(** C2 at a concrete request: Ann redeems her code with another phone. *)
Lemma data_mismatch_keeps_ticket_witness :
  redeem (registration "Ann" "ann@x.com" "secret" "556" (Some "012345")) 1001
    CreateUserError state_with_ticket = (DataMismatch, state_with_ticket) /\
  exists new_id st2,
    redeem (registration "Ann" "ann@x.com" "secret" "555" (Some "012345")) 1002
      (Created "uid-1") state_with_ticket
    = ((User {| v_id := new_id; v_name := "Ann"; v_email := "ann@x.com";
                v_phone := "555" |}, 200), st2).
Proof.
  destruct (data_mismatch_keeps_ticket ascii_lower tagged_digest
              "Ann" "ann@x.com" "secret" "556" "012345" 1001 CreateUserError
              state_with_ticket ann_ticket) as (Hfirst & _ & _ & Hnext).
  - repeat split.
  - reflexivity.
  - reflexivity.
  - simpl; lia.
  - reflexivity.
  - right; right. discriminate.
  - split; [apply Hfirst; reflexivity|].
    apply (Hnext 1002 "uid-1"); [simpl; lia|repeat split|reflexivity|reflexivity].
Defined.

(** C2 as stated fails: after the DataMismatch the ticket is still in the
    table, and a second Redeem with the original code answers DataMismatch
    again (with the altered phone) or succeeds (with the pending data), not
    CodeNotFound. *)
Lemma data_mismatch_does_not_purge :
  verification_codes state_with_ticket !! "ann@x.com" = Some ann_ticket /\
  redeem (registration "Ann" "ann@x.com" "secret" "556" (Some "012345")) 1001
    (Created "uid-1") state_with_ticket = (DataMismatch, state_with_ticket) /\
  redeem (registration "Ann" "ann@x.com" "secret" "556" (Some "012345")) 1002
    (Created "uid-1") state_with_ticket <> (CodeNotFound, state_with_ticket) /\
  fst (redeem (registration "Ann" "ann@x.com" "secret" "555" (Some "012345")) 1002
         (Created "uid-1") state_with_ticket)
  = (User {| v_id := 1; v_name := "Ann"; v_email := "ann@x.com"; v_phone := "555" |},
     200).
Proof.
  split; [reflexivity|]. split; [reflexivity|]. split; [|reflexivity].
  vm_compute. discriminate.
Qed.

(** C3 at a concrete request: a wrong code, then the right one. *)
Lemma code_mismatch_keeps_ticket_witness :
  redeem (registration "Ann" "ann@x.com" "secret" "555" (Some "999999")) 1001
    (Created "uid-1") state_with_ticket = (CodeMismatch, state_with_ticket) /\
  exists new_id st2,
    redeem (registration "Ann" "ann@x.com" "secret" "555" (Some "012345")) 1002
      (Created "uid-1") state_with_ticket
    = ((User {| v_id := new_id; v_name := "Ann"; v_email := "ann@x.com";
                v_phone := "555" |}, 200), st2) /\
    records_for st2 "ann@x.com" = 1%nat /\
    verification_codes st2 !! "ann@x.com" = None.
Proof.
  destruct (code_mismatch_keeps_ticket ascii_lower tagged_digest
              "Ann" "ann@x.com" "secret" "555" "999999" 1001 (Created "uid-1")
              state_with_ticket ann_ticket) as (Hnorow & _).
  - repeat split.
  - reflexivity.
  - reflexivity.
  - simpl; lia.
  - discriminate.
  - destruct (Hnorow eq_refl) as (Hfirst & Hnext).
    split; [exact Hfirst|].
    apply (Hnext 1002 "uid-1"); [simpl; lia|repeat split|reflexivity|reflexivity].
Defined.

(** C3 as stated fails once the email has a user row: Ann asks for a code,
    then logs in through Firebase, which leaves a row for her address
    beside the outstanding, unexpired ticket; a Redeem with a wrong code
    then answers AlreadyRegistered, not CodeMismatch. *)
Lemma registered_email_hides_code_mismatch :
  let st1 := snd (send (registration "Ann" "ann@x.com" "secret" "555" None) 1000
                    count_up true empty_state) in
  let st2 := snd (login (credentials "ann@x.com" "secret")
                    (HttpResponse 200 (Some "uid-1") None) no_profiles st1) in
  verification_codes st2 !! "ann@x.com" = Some ann_ticket /\
  1001 <= t_expires_at ann_ticket /\
  t_code ann_ticket <> "999999" /\
  redeem (registration "Ann" "ann@x.com" "secret" "555" (Some "999999")) 1001
    (Created "uid-1") st2 = (AlreadyRegistered, st2) /\
  AlreadyRegistered <> CodeMismatch.
Proof.
  cbv zeta. split; [reflexivity|]. split; [simpl; lia|].
  split; [discriminate|]. split; [reflexivity|discriminate].
Qed.

(** C4 at a concrete request: Ann redeems a minute after the expiry. *)
Lemma expired_ticket_is_purged_witness :
  redeem (registration "Ann" "ann@x.com" "secret" "555" (Some "012345")) 1660
    (Created "uid-1") state_with_ticket = (CodeExpired, empty_state) /\
  redeem (registration "Ann" "ann@x.com" "secret" "555" (Some "012345")) 1661
    (Created "uid-1") empty_state = (CodeNotFound, empty_state).
Proof.
  destruct (expired_ticket_is_purged ascii_lower tagged_digest
              "Ann" "ann@x.com" "secret" "555" "012345" 1660 (Created "uid-1")
              state_with_ticket ann_ticket) as (Hnorow & _).
  - repeat split.
  - reflexivity.
  - reflexivity.
  - simpl; lia.
  - destruct (Hnorow eq_refl) as (st' & Hfirst & _ & _ & Hnext).
    assert (st' = empty_state) as ->
      by (vm_compute in Hfirst; injection Hfirst as <-; reflexivity).
    split; [exact Hfirst|apply Hnext].
Defined.

(** C4 as stated fails once the email has a user row: in the state that
    Ann's request for a code and her login through Firebase leave behind, a
    Redeem after the expiry answers AlreadyRegistered, the expired ticket
    stays in the table, and a second Redeem with the same code answers
    AlreadyRegistered again, not CodeNotFound. *)
Lemma registered_email_keeps_expired_ticket :
  let st1 := snd (send (registration "Ann" "ann@x.com" "secret" "555" None) 1000
                    count_up true empty_state) in
  let st2 := snd (login (credentials "ann@x.com" "secret")
                    (HttpResponse 200 (Some "uid-1") None) no_profiles st1) in
  verification_codes st2 !! "ann@x.com" = Some ann_ticket /\
  t_expires_at ann_ticket < 1700 /\
  redeem (registration "Ann" "ann@x.com" "secret" "555" (Some "012345")) 1700
    (Created "uid-1") st2 = (AlreadyRegistered, st2) /\
  AlreadyRegistered <> CodeExpired /\
  redeem (registration "Ann" "ann@x.com" "secret" "555" (Some "012345")) 1701
    (Created "uid-1") st2 = (AlreadyRegistered, st2) /\
  AlreadyRegistered <> CodeNotFound.
Proof.
  cbv zeta. split; [reflexivity|]. split; [simpl; lia|].
  split; [reflexivity|]. split; [discriminate|]. split; [reflexivity|discriminate].
Qed.

(** C5 at a concrete request: the SMTP server is down. *)
Lemma delivery_failure_rolls_back_witness :
  send (registration "Ann" "Ann@X.com" "secret" "555" None) 1000 count_up false
    state_with_ticket = (DeliveryFailed, empty_state) /\
  verification_codes empty_state !! "ann@x.com" = None.
Proof.
  destruct (delivery_failure_rolls_back ascii_lower None
              "Ann" "Ann@X.com" "secret" "555" None 1000 count_up state_with_ticket)
    as (st' & Hsend & Hgone & _).
  - repeat split.
  - reflexivity.
  - reflexivity.
  - assert (st' = empty_state) as ->
      by (vm_compute in Hsend; injection Hsend as <-; reflexivity).
    split; [exact Hsend|exact Hgone].
Defined.

(** C5 as stated fails on the status: the response of a failed delivery
    carries 500, which is not a 400-class status. *)
Lemma delivery_failure_is_not_400_class :
  send (registration "Ann" "Ann@X.com" "secret" "555" None) 1000 count_up false
    empty_state = ((Failure "Failed to send verification email. Please try again.",
                    500), empty_state) /\
  ~ (400 <= snd (fst (send (registration "Ann" "Ann@X.com" "secret" "555" None)
                        1000 count_up false empty_state)) < 500).
Proof.
  split; [reflexivity|]. vm_compute. intros [_ H]. discriminate H.
Qed.

(** C6 at concrete requests: Ann asks twice, under two spellings of her
    address, and the generator draws two different codes. *)
Lemma second_request_replaces_ticket_witness :
  exists st1 st2,
    send (registration "Ann" "Ann@X.com" "secret" "555" None) 1000 zeros true
      empty_state = (CodeSent, st1) /\
    send (registration "Anna" "ann@x.com" "hidden" "777" None) 1100 count_up true
      st1 = (CodeSent, st2) /\
    verification_codes st2 !! "ann@x.com"
    = Some {| t_code := "012345"; t_expires_at := 1700; t_name := "Anna";
              t_password := "hidden"; t_phone := "777" |} /\
    dom (verification_codes st2) = dom (verification_codes st1) /\
    redeem (registration "Ann" "Ann@X.com" "secret" "555" (Some "000000")) 1200
      (Created "uid-1") st2 = (CodeMismatch, st2).
Proof.
  destruct (second_request_replaces_ticket ascii_lower tagged_digest None
              "Ann" "Ann@X.com" "secret" "555" 1000 zeros
              "Anna" "ann@x.com" "hidden" "777" 1100 count_up empty_state)
    as (st1 & st2 & Hsend1 & _ & Hsend2 & Htk & _ & Hdom & Hredeem & _).
  - repeat split.
  - repeat split.
  - reflexivity.
  - reflexivity.
  - reflexivity.
  - reflexivity.
  - exists st1, st2.
    split; [exact Hsend1|]. split; [exact Hsend2|]. split; [exact Htk|].
    split; [exact Hdom|].
    apply (Hredeem ltac:(discriminate) "Ann" "secret" "555" 1200 (Created "uid-1")).
    + repeat split.
    + simpl. unfold VERIFICATION_CODE_EXPIRY. lia.
Defined.

(** C6 as stated fails when the generator draws the same six digits twice:
    the second request replaces the ticket, and a Redeem presenting the
    first ticket's code then succeeds instead of failing with
    CodeMismatch. *)
Lemma equal_codes_still_redeem :
  let st1 := snd (send (registration "Ann" "ann@x.com" "secret" "555" None) 1000
                    zeros true empty_state) in
  let st2 := snd (send (registration "Ann" "ann@x.com" "secret" "555" None) 1100
                    zeros true st1) in
  t_code <$> verification_codes st1 !! "ann@x.com" = Some "000000" /\
  verification_codes st2 !! "ann@x.com"
  = Some {| t_code := "000000"; t_expires_at := 1700; t_name := "Ann";
            t_password := "secret"; t_phone := "555" |} /\
  fst (redeem (registration "Ann" "ann@x.com" "secret" "555" (Some "000000")) 1200
         (Created "uid-1") st2)
  = (User {| v_id := 1; v_name := "Ann"; v_email := "ann@x.com"; v_phone := "555" |},
     200) /\
  fst (redeem (registration "Ann" "ann@x.com" "secret" "555" (Some "000000")) 1200
         (Created "uid-1") st2) <> CodeMismatch.
Proof.
  split; [reflexivity|]. split; [reflexivity|]. split; [reflexivity|].
  vm_compute. discriminate.
Qed.

(** C7 at a concrete request: the reserved address in capitals. *)
Lemma reserved_email_is_rejected_witness :
  send (registration "Eve" "ADMIN@ShopHub.com" "secret" "555" None) 1000 count_up
    true empty_state = (ReservedEmail, empty_state) /\
  send (registration "Eve" "admin@shophub.com" "secret" "555" None) 1000 count_up
    true state_with_admin = (AlreadyRegistered, state_with_admin).
Proof.
  split.
  - apply (reserved_email_is_rejected ascii_lower None
             "Eve" "ADMIN@ShopHub.com" "secret" "555" None 1000 count_up true
             empty_state); [repeat split|reflexivity].
  - apply (reserved_email_is_rejected ascii_lower None
             "Eve" "admin@shophub.com" "secret" "555" None 1000 count_up true
             state_with_admin); [repeat split|reflexivity].
Defined.

(** C7 as stated fails when the users table holds the reserved address:
    RequestVerification then answers AlreadyRegistered, not ReservedEmail. *)
Lemma reserved_email_depends_on_users_table :
  ascii_lower "admin@shophub.com" = ascii_lower (ADMIN_EMAIL None) /\
  send (registration "Eve" "admin@shophub.com" "secret" "555" None) 1000 count_up
    true state_with_admin
  = ((Failure "Email already registered", 400), state_with_admin) /\
  fst (send (registration "Eve" "admin@shophub.com" "secret" "555" None) 1000
         count_up true state_with_admin) <> ReservedEmail.
Proof.
  split; [reflexivity|]. split; [reflexivity|]. vm_compute. discriminate.
Qed.

(** C8 at a concrete request: Firebase cannot be reached and the email has
    no local row. *)
Lemma remote_outage_wins_witness :
  login (credentials "ann@x.com" "secret") RequestException no_profiles empty_state
  = ((Failure "Authentication service is unreachable. Please try again shortly.",
      503), empty_state).
Proof.
  apply (remote_outage_wins tagged_digest (Some "web-api-key")
           "ann@x.com" "secret" RequestException no_profiles empty_state
           "Authentication service is unreachable. Please try again shortly." 503
           "Invalid email or password" 401);
    [reflexivity|reflexivity|reflexivity|reflexivity|lia|reflexivity].
Defined.

(** C9 at a concrete request: Ann signs in through Firebase three times. *)
Lemma ensure_local_mirror_idempotent_witness :
  let first := {| a_data := credentials "ann@x.com" "secret";
                  a_http := HttpResponse 200 (Some "uid-1") None;
                  a_get_user := no_profiles |} in
  let ann := (User {| v_id := 1; v_name := "ann"; v_email := "ann@x.com";
                      v_phone := "" |}, 200) in
  exists st1,
    login (a_data first) (a_http first) (a_get_user first) empty_state = (ann, st1) /\
    records_for st1 "ann@x.com" = 1%nat /\
    run_logins tagged_digest (Some "web-api-key") [first; first] st1
    = ([ann; ann], st1).
Proof.
  intros first ann.
  destruct (ensure_local_mirror_idempotent tagged_digest (Some "web-api-key")
              "ann@x.com" "secret" (Some "uid-1")
              (HttpResponse 200 (Some "uid-1") None) no_profiles empty_state)
    as (Hroom & _);
    [reflexivity|reflexivity|reflexivity|reflexivity|reflexivity|].
  destruct Hroom as (row & st1 & Hlogin & Husers & _ & _ & Hone & _ & _ & Hagain);
    [reflexivity|].
  exists st1.
  assert (row = {| u_id := 1; u_name := "ann"; u_email := "ann@x.com";
                   u_password := tagged_digest "secret"; u_phone := Some "" |})
    as ->.
  { pose proof (f_equal snd Hlogin) as Hst. vm_compute in Hst. subst st1.
    vm_compute in Husers. injection Husers as <-. reflexivity. }
  split; [exact Hlogin|]. split; [exact Hone|].
  apply (Hagain [first; first]).
  repeat constructor; exists "secret", (Some "uid-1"); repeat split.
Defined.

(** C9 as stated fails when the users table has handed out the last rowid:
    Firebase accepts Bob, who has no user row, the INSERT of the mirror row
    raises, the login ends in an uncaught exception and no row exists for
    his email afterwards. *)
Lemma full_users_table_blocks_mirror :
  fetch_local_user state_with_last_rowid "bob@y.org" = None /\
  sign_in_with_firebase (HttpResponse 200 (Some "uid-2") None)
  = SignedIn (Some "uid-2") /\
  login (credentials "bob@y.org" "hunter2") (HttpResponse 200 (Some "uid-2") None)
    no_profiles state_with_last_rowid = (UncaughtException, state_with_last_rowid) /\
  records_for state_with_last_rowid "bob@y.org" = 0%nat /\
  ~ exists row st1,
      login (credentials "bob@y.org" "hunter2")
        (HttpResponse 200 (Some "uid-2") None) no_profiles state_with_last_rowid
      = ((build_user_response (Some row), 200), st1).
Proof.
  assert (login (credentials "bob@y.org" "hunter2")
            (HttpResponse 200 (Some "uid-2") None) no_profiles state_with_last_rowid
          = (UncaughtException, state_with_last_rowid)) as Hlogin
    by reflexivity.
  split; [reflexivity|]. split; [reflexivity|]. split; [exact Hlogin|].
  split; [reflexivity|].
  intros (row & st1 & H). rewrite Hlogin in H. discriminate H.
Qed.

(** ** The further properties on concrete requests *)

Local Abbreviation session :=
  (serve_all ascii_lower tagged_digest None (Some "web-api-key")).

Lemma emails_stay_unique_witness :
  emails_unique (snd (session sample_session state_with_admin)).
Proof.
  apply (emails_stay_unique ascii_lower tagged_digest None (Some "web-api-key")
           sample_session state_with_admin).
  constructor; [intros []|constructor].
Defined.

Lemma state_with_ticket_ok : tickets_ok ascii_lower None state_with_ticket.
Proof.
  split; [|reflexivity].
  intros key tk Hk.
  change (({[ "ann@x.com" := ann_ticket ]} : gmap string ticket) !! key = Some tk) in Hk.
  apply lookup_singleton_Some in Hk. destruct Hk as [<- <-].
  split; [repeat split|]. exists "ann@x.com". split; reflexivity.
Qed.

Lemma tickets_stay_well_formed_witness :
  tickets_ok ascii_lower None (snd (session sample_session state_with_ticket)).
Proof.
  apply (tickets_stay_well_formed ascii_lower tagged_digest None
           (Some "web-api-key") sample_session state_with_ticket).
  exact state_with_ticket_ok.
Defined.

Lemma other_tickets_are_untouched_witness :
  verification_codes
    (snd (send (registration "Bob" "bob@y.org" "hunter2" "777" None) 2000 zeros
            true state_with_ticket)) !! "ann@x.com"
  = Some ann_ticket.
Proof.
  apply (other_tickets_are_untouched ascii_lower tagged_digest None
           (Some "web-api-key")
           (SendVerification (registration "Bob" "bob@y.org" "hunter2" "777" None)
              2000 zeros true)
           state_with_ticket "ann@x.com").
  intros email [= <-]. vm_compute. discriminate.
Defined.

Lemma registration_requires_verification_witness :
  exists name email password phone code tk,
    registration "Ann" "ann@x.com" "secret" "555" (Some "012345")
    = registration name email password phone (Some code) /\
    fetch_local_user state_with_ticket email = None /\
    verification_codes state_with_ticket !! ascii_lower email = Some tk /\
    t_code tk = code /\ t_name tk = name /\ t_password tk = password /\
    t_phone tk = phone /\
    1001 <= t_expires_at tk /\
    (exists uid, Created "uid-1" = Created uid) /\
    verification_codes
      (snd (redeem (registration "Ann" "ann@x.com" "secret" "555" (Some "012345"))
              1001 (Created "uid-1") state_with_ticket)) !! ascii_lower email
    = None.
Proof.
  apply (registration_requires_verification ascii_lower tagged_digest
           (registration "Ann" "ann@x.com" "secret" "555" (Some "012345")) 1001
           (Created "uid-1") state_with_ticket).
  reflexivity.
Defined.

Lemma empty_state_ok : tickets_ok ascii_lower None empty_state.
Proof.
  split; [|reflexivity]. intros key tk Hk.
  change ((∅ : gmap string ticket) !! key = Some tk) in Hk.
  rewrite lookup_empty in Hk. discriminate.
Qed.

Lemma reserved_address_never_redeems_witness :
  succeeded
    (fst (redeem (registration "Eve" "ADMIN@shophub.com" "secret" "555"
                    (Some "012345")) 1002 (Created "uid-9")
            (snd (session sample_session empty_state)))) = false.
Proof.
  apply (reserved_address_never_redeems ascii_lower tagged_digest None
           (Some "web-api-key") sample_session empty_state
           (registration "Eve" "ADMIN@shophub.com" "secret" "555" (Some "012345"))
           1002 (Created "uid-9") "ADMIN@shophub.com").
  - exact empty_state_ok.
  - reflexivity.
  - reflexivity.
Defined.

Lemma registration_is_single_use_witness :
  let st2 := snd (redeem (registration "Ann" "ann@x.com" "secret" "555"
                            (Some "012345")) 1001 (Created "uid-1")
                    state_with_ticket) in
  redeem (registration "Ann" "ann@x.com" "secret" "555" (Some "012345")) 1002
    (Created "uid-1") st2 = (AlreadyRegistered, st2) /\
  send (registration "Ann" "ann@x.com" "secret" "555" None) 1002 count_up true st2
  = (AlreadyRegistered, st2).
Proof.
  apply (registration_is_single_use ascii_lower tagged_digest None
           (registration "Ann" "ann@x.com" "secret" "555" (Some "012345")) 1001
           (Created "uid-1") state_with_ticket
           "Ann" "secret" "555" "012345" 1002 (Created "uid-1") count_up true
           "ann@x.com").
  - reflexivity.
  - reflexivity.
  - repeat split.
  - reflexivity.
Defined.

Lemma code_redeems_other_spelling_witness :
  exists st1 new_id st2,
    send (registration "Ann" "Ann@X.com" "secret" "555" None) 1000 count_up true
      empty_state = (CodeSent, st1) /\
    redeem (registration "Ann" "ann@x.com" "secret" "555"
              (Some (generate_verification_code count_up))) 1001 (Created "uid-1")
      st1
    = ((User {| v_id := new_id; v_name := "Ann"; v_email := "ann@x.com";
                v_phone := "555" |}, 200), st2) /\
    records_for st2 "ann@x.com" = 1%nat /\
    records_for st2 "Ann@X.com" = 0%nat.
Proof.
  apply (code_redeems_other_spelling ascii_lower tagged_digest None
           "Ann" "Ann@X.com" "ann@x.com" "secret" "555" 1000 1001 count_up "uid-1"
           empty_state).
  - repeat split.
  - reflexivity.
  - reflexivity.
  - reflexivity.
  - reflexivity.
  - discriminate.
  - reflexivity.
  - reflexivity.
  - unfold VERIFICATION_CODE_EXPIRY. lia.
Defined.

Lemma registered_user_can_log_in_witness :
  let registered :=
    redeem (registration "Ann" "ann@x.com" "secret" "555" (Some "012345")) 1001
      (Created "uid-1") state_with_ticket in
  login (credentials "ann@x.com" "secret") RequestException no_profiles
    (snd registered)
  = (fst registered, snd registered).
Proof.
  apply (registered_user_can_log_in ascii_lower tagged_digest (Some "web-api-key")
           (registration "Ann" "ann@x.com" "secret" "555" (Some "012345")) 1001
           (Created "uid-1") state_with_ticket "ann@x.com" "secret"
           RequestException no_profiles).
  - reflexivity.
  - reflexivity.
  - reflexivity.
  - reflexivity.
  - right. eexists _, _. reflexivity.
Defined.

Lemma local_login_is_decided_by_the_hash_witness :
  login_user tagged_digest None (credentials "admin@shophub.com" "root")
    RequestException no_profiles state_with_admin
  = ((User {| v_id := 1; v_name := "admin"; v_email := "admin@shophub.com";
              v_phone := "" |}, 200), state_with_admin) /\
  login_user tagged_digest None (credentials "admin@shophub.com" "toor")
    RequestException no_profiles state_with_admin
  = ((Failure "Invalid email or password", 401), state_with_admin).
Proof.
  split.
  - destruct (local_login_is_decided_by_the_hash tagged_digest None
                "admin@shophub.com" "root" RequestException no_profiles
                state_with_admin eq_refl eq_refl eq_refl)
      as [(user & Hfetch & _ & _ & Hlogin)|[_ Hlogin]].
    + injection Hfetch as <-. exact Hlogin.
    + reflexivity.
  - destruct (local_login_is_decided_by_the_hash tagged_digest None
                "admin@shophub.com" "toor" RequestException no_profiles
                state_with_admin eq_refl eq_refl eq_refl)
      as [(user & Hfetch & _ & Hhash & _)|[_ Hlogin]].
    + injection Hfetch as <-. discriminate Hhash.
    + exact Hlogin.
Defined.

Lemma remote_rejection_message_is_kept_witness :
  login (credentials "ann@x.com" "secret")
    (HttpResponse 400 None (Some "USER_DISABLED")) no_profiles empty_state
  = ((Failure "Your account has been disabled. Please contact support.", 401),
     empty_state).
Proof.
  apply (remote_rejection_message_is_kept tagged_digest (Some "web-api-key")
           "ann@x.com" "secret" 400 None (Some "USER_DISABLED") no_profiles
           empty_state "Invalid email or password" 401);
    [reflexivity|reflexivity|reflexivity|discriminate|reflexivity].
Defined.

Lemma mirrored_user_can_log_in_offline_witness :
  let first :=
    login (credentials "bob@y.org" "hunter2") (HttpResponse 200 (Some "uid-2") None)
      no_profiles empty_state in
  succeeded (fst first) = true /\
  login (credentials "bob@y.org" "hunter2") RequestException no_profiles (snd first)
  = (fst first, snd first).
Proof.
  apply (mirrored_user_can_log_in_offline tagged_digest (Some "web-api-key")
           "bob@y.org" "hunter2" (Some "uid-2")
           (HttpResponse 200 (Some "uid-2") None) no_profiles
           RequestException no_profiles
           "Authentication service is unreachable. Please try again shortly." 503
           empty_state); reflexivity.
Defined.

Lemma default_name_is_the_local_part_witness :
  split_at_0 "ann@x.com" = "ann" /\ split_at_0 "ann" = "ann" /\
  forall email, no_at (split_at_0 email) = true.
Proof. apply (default_name_is_the_local_part "ann" "x.com"). reflexivity. Defined.

(** ** The order routes *)

Section OrderRoutes.

Context {REAL json : Type}.

(** [json.loads]. *)
Variable json_loads : string -> json + string.

Implicit Types (db : orders_db REAL) (o r : order_row REAL).

Lemma has_number_set_status number s o :
  has_number number (set_status s o) = has_number number o.
Proof. reflexivity. Qed.

Lemma rowcount_zero number (rows : list (order_row REAL)) :
  Nat.eqb (length (List.filter (has_number number) rows)) 0 = true <->
  List.find (has_number number) rows = None.
Proof.
  induction rows as [|o rows IH]; simpl; [tauto|].
  destruct (has_number number o); simpl; [split; discriminate|exact IH].
Qed.

Lemma find_after_update number s (rows : list (order_row REAL)) :
  List.find (has_number number)
    (List.map (fun o => if has_number number o then set_status s o else o) rows)
  = option_map (set_status s) (List.find (has_number number) rows).
Proof.
  induction rows as [|o rows IH]; simpl; [reflexivity|].
  destruct (has_number number o) eqn:Ho; simpl.
  - rewrite has_number_set_status, Ho. reflexivity.
  - rewrite Ho. exact IH.
Qed.

Lemma has_number_other number other o :
  other <> number -> has_number number o = true -> has_number other o = false.
Proof.
  unfold has_number. intros Hne Hn. apply String.eqb_eq in Hn.
  apply String.eqb_neq. congruence.
Qed.

Lemma find_other_after_update number other s (rows : list (order_row REAL)) :
  other <> number ->
  List.find (has_number other)
    (List.map (fun o => if has_number number o then set_status s o else o) rows)
  = List.find (has_number other) rows.
Proof.
  intros Hne. induction rows as [|o rows IH]; simpl; [reflexivity|].
  destruct (has_number number o) eqn:Ho.
  - rewrite has_number_set_status, (has_number_other _ _ _ Hne Ho). exact IH.
  - destruct (has_number other o); [reflexivity|exact IH].
Qed.

Lemma find_after_delete number (rows : list (order_row REAL)) :
  List.find (has_number number)
    (List.filter (fun o => negb (has_number number o)) rows) = None.
Proof.
  induction rows as [|o rows IH]; simpl; [reflexivity|].
  destruct (has_number number o) eqn:Ho; simpl; [exact IH|].
  rewrite Ho. exact IH.
Qed.

Lemma find_other_after_delete number other (rows : list (order_row REAL)) :
  other <> number ->
  List.find (has_number other)
    (List.filter (fun o => negb (has_number number o)) rows)
  = List.find (has_number other) rows.
Proof.
  intros Hne. induction rows as [|o rows IH]; simpl; [reflexivity|].
  destruct (has_number number o) eqn:Ho; simpl.
  - rewrite (has_number_other _ _ _ Hne Ho). exact IH.
  - destruct (has_number other o); [reflexivity|exact IH].
Qed.

Lemma delete_nothing number (rows : list (order_row REAL)) :
  List.find (has_number number) rows = None ->
  List.filter (fun o => negb (has_number number o)) rows = rows.
Proof.
  induction rows as [|o rows IH]; simpl; [reflexivity|].
  destruct (has_number number o); simpl; [discriminate|].
  intros H. rewrite (IH H). reflexivity.
Qed.

Lemma valid_status_accepted s :
  In s valid_statuses <-> existsb (String.eqb s) valid_statuses = true.
Proof.
  rewrite List.existsb_exists. split.
  - intros H. exists s. split; [exact H|apply String.eqb_refl].
  - intros (x & Hx & Heq). apply String.eqb_eq in Heq. subst. exact Hx.
Qed.

Lemma valid_status_truthy s : In s valid_statuses -> truthy s = true.
Proof.
  unfold valid_statuses. simpl.
  intros [<-|[<-|[<-|[<-|[<-|[]]]]]]; reflexivity.
Qed.

(** X19. A status update shows in tracking: for an order that exists and
    one of the five statuses, the update answers 200, tracking the order
    afterwards returns the same row with the new status (and the same
    parsed items, or the same parse error), tracking any other order number
    answers as before, and no row is added or removed. *)
Theorem status_update_is_tracked number s db r :
  In s valid_statuses ->
  List.find (has_number number) (orders db) = Some r ->
  exists db',
    update_order_status (json := json) number (Some s) db
      = ((ONotice ("Order status updated to " +:+ s), 200), db') /\
    track_order json_loads number db'
      = match json_loads (o_items r) with
        | inl items => (OOrder (set_status s r) items, 200)
        | inr message => (OError message, 500)
        end /\
    (forall other, other <> number ->
        track_order json_loads other db' = track_order json_loads other db) /\
    length (orders db') = length (orders db) /\
    orders_seq db' = orders_seq db.
Proof.
  intros Hs Hfind. unfold update_order_status.
  rewrite (valid_status_truthy s Hs), (proj1 (valid_status_accepted s) Hs).
  cbn [negb]. destruct (Nat.eqb _ 0) eqn:Hcount.
  { apply rowcount_zero in Hcount. congruence. }
  eexists. split; [reflexivity|]. unfold track_order; simpl.
  split; [rewrite find_after_update, Hfind; reflexivity|].
  split; [intros other Hne; rewrite find_other_after_update by exact Hne; reflexivity|].
  split; [apply List.length_map|reflexivity].
Qed.

(** X20. A status update is accepted exactly for the five statuses
    pending, processing, shipped, delivered and cancelled and an existing
    order: it answers 400 when the status is missing, empty or any other
    string (the comparison is exact, so "Shipped" is refused), 404 when the
    status is valid but no order has the number, and 200 otherwise; every
    refused update leaves the table as it was. *)
Theorem status_update_cases number new_status db :
  let valid := exists s, new_status = Some s /\ In s valid_statuses in
  let known := List.find (has_number number) (orders db) <> None in
  let result := update_order_status (json := json) number new_status db in
  (snd (fst result) = 400 <-> ~ valid) /\
  (snd (fst result) = 404 <-> valid /\ ~ known) /\
  (snd (fst result) = 200 <-> valid /\ known) /\
  (snd (fst result) <> 200 -> snd result = db).
Proof.
  unfold update_order_status.
  destruct new_status as [s|]; cbn [negb fst snd].
  2:{ repeat split; try discriminate; try tauto.
      - intros _ (s & Hs & _). discriminate.
      - intros [(s & Hs & _) _]. discriminate.
      - intros [(s & Hs & _) _]. discriminate. }
  destruct (truthy s) eqn:Ht; cbn [negb fst snd].
  2:{ assert (~ In s valid_statuses) as Hno
        by (intros H; apply valid_status_truthy in H; congruence).
      repeat split; try discriminate; try tauto.
      - intros _ (s' & [= <-] & Hs). tauto.
      - intros [(s' & [= <-] & Hs) _]. tauto.
      - intros [(s' & [= <-] & Hs) _]. tauto. }
  destruct (existsb (String.eqb s) valid_statuses) eqn:Hv; cbn [negb fst snd].
  2:{ assert (~ In s valid_statuses) as Hno
        by (intros H; apply valid_status_accepted in H; congruence).
      repeat split; try discriminate; try tauto.
      - intros _ (s' & [= <-] & Hs). tauto.
      - intros [(s' & [= <-] & Hs) _]. tauto.
      - intros [(s' & [= <-] & Hs) _]. tauto. }
  apply valid_status_accepted in Hv.
  assert (exists s', Some s = Some s' /\ In s' valid_statuses) as Hvalid by eauto.
  destruct (Nat.eqb _ 0) eqn:Hcount; cbn [negb fst snd].
  - apply rowcount_zero in Hcount.
    repeat split; try discriminate; try tauto.
  - assert (List.find (has_number number) (orders db) <> None) as Hknown.
    { intros H. apply rowcount_zero in H. congruence. }
    repeat split; try discriminate; try tauto.
Qed.

(** X21. Deleting an order removes it from tracking and nothing else: after
    a delete, tracking the number answers 404 "Order not found" and a second
    delete answers 404 and changes nothing; tracking any other order number
    answers as before; the first delete answers 404 exactly when no order
    had the number, and then the table is unchanged. *)
Theorem deleted_order_is_gone number db :
  let result := delete_order (json := json) number db in
  track_order json_loads number (snd result) = (OError "Order not found", 404) /\
  delete_order (json := json) number (snd result)
    = ((OFailure "Order not found", 404), snd result) /\
  (forall other, other <> number ->
      track_order json_loads other (snd result) = track_order json_loads other db) /\
  (snd (fst result) = 404 <-> List.find (has_number number) (orders db) = None) /\
  (snd (fst result) = 404 -> snd result = db) /\
  (snd (fst result) = 404 \/ snd (fst result) = 200).
Proof.
  set (db' := {| orders := List.filter (fun o => negb (has_number number o)) (orders db);
                 orders_seq := orders_seq db |}).
  assert (snd (delete_order (json := json) number db) = db') as Hsnd.
  { unfold delete_order. destruct (Nat.eqb _ 0); reflexivity. }
  cbv zeta. rewrite Hsnd.
  split; [unfold track_order; simpl; rewrite find_after_delete; reflexivity|].
  split.
  { unfold delete_order.
    pose proof (proj2 (rowcount_zero number (orders db')) (find_after_delete number _))
      as ->.
    simpl. rewrite delete_nothing by apply find_after_delete. reflexivity. }
  split.
  { intros other Hne. unfold track_order; simpl.
    rewrite find_other_after_delete by exact Hne. reflexivity. }
  unfold delete_order.
  destruct (Nat.eqb _ 0) eqn:Hcount; simpl.
  - apply rowcount_zero in Hcount. split; [tauto|]. split; [|tauto].
    intros _. unfold db'. rewrite delete_nothing by exact Hcount.
    destruct db; reflexivity.
  - split; [|split; [discriminate|tauto]].
    split; [discriminate|]. intros H. apply rowcount_zero in H. congruence.
Qed.

End OrderRoutes.

Lemma status_update_is_tracked_witness :
  let order : order_row Z :=
    {| o_id := 1; o_order_number := "ORD-1"; o_customer_name := "Ann";
       o_customer_email := "ann@x.com"; o_customer_phone := Some "555";
       o_shipping_address := "1 Main St"; o_city := "Pune"; o_state := "MH";
       o_zip_code := "411001"; o_total_amount := 80; o_items := "[]";
       o_order_date := "2025-01-01T10:00:00"; o_status := "pending" |} in
  let db := {| orders := [order]; orders_seq := 1 |} in
  exists db',
    update_order_status (json := string) "ORD-1" (Some "shipped") db
      = ((ONotice "Order status updated to shipped", 200), db') /\
    track_order inl "ORD-1" db' = (OOrder (set_status "shipped" order) "[]", 200).
Proof.
  intros order db.
  destruct (status_update_is_tracked (json := string) inl "ORD-1" "shipped" db order)
    as (db' & Hupdate & Htrack & _).
  - right; right; left. reflexivity.
  - reflexivity.
  - exists db'. split; [exact Hupdate|exact Htrack].
Defined.
